(** * Live spectrogram: the data pipeline, embedded and verified

    A shallow embedding of the spectrogram core of the application:
    - [spectrogramAnimation.ts]  the scroll buffer updater,
    - [spectrogramGeometry.ts]   vertex grid and triangle indices,
    - [spectrogramHelpers.ts]    FFT size, vertex count, validation, log axis,
    - [spectrogramShaders.ts]    the intensity-to-colour mapping,
    - [spectrogramAudio.ts], [mic/micAudio.ts]  teardown of audio resources,
    - [LiveSpectrogram.tsx]      [initializeThree].

    Conventions.  Sample counts and array indices are JavaScript numbers that
    only ever hold integers: they are [Z].  A [Uint8Array] is a [list byte];
    reads out of range give [None] (JavaScript's [undefined]) and writes out
    of range are dropped, as typed arrays do.  Sizes, coordinates and shader
    intensities are exact rationals [Q] (no rounding, no NaN).  Operations
    that throw return [option] or a result type. *)

From Stdlib Require Import ZArith QArith Lia Lqa String.
From Stdlib.Strings Require Import Byte.
From stdpp Require Import base tactics option list.

Local Open Scope Z_scope.

(** ** Loops *)

Module Loop.

(** [for (let i = lo; i < hi; i++) s = body i s] *)
Definition for_lt {S : Type} (lo hi : Z) (body : Z -> S -> S) (s : S) : S :=
  foldl (fun acc i => body i acc) s (seqZ lo (hi - lo)).

(** [for (let i = lo; i <= hi; i++) s = body i s] *)
Definition for_le {S : Type} (lo hi : Z) (body : Z -> S -> S) (s : S) : S :=
  for_lt lo (hi + 1) body s.

End Loop.

(** ** Typed arrays *)

Module TypedArray.

Abbreviation Uint8Array := (list byte).

(** [new Uint8Array(n)]: zero filled; a negative length is a RangeError. *)
Definition create (n : Z) : option Uint8Array :=
  if n <? 0 then None else Some (replicate (Z.to_nat n) x00).

(** [a[i]]: [undefined] outside [0 .. length-1]. *)
Definition get (a : Uint8Array) (i : Z) : option byte :=
  if i <? 0 then None else a !! Z.to_nat i.

(** [a[i] = v]: ignored outside [0 .. length-1]. *)
Definition put (a : Uint8Array) (i : Z) (v : byte) : Uint8Array :=
  if i <? 0 then a else <[Z.to_nat i := v]> a.

(** [x || 0] on the result of an element read. *)
Definition or_zero (x : option byte) : byte :=
  match x with
  | Some b => if Byte.eqb b x00 then x00 else b
  | None => x00
  end.

(** Relative index of [copyWithin]: negative counts from the end, then
    clamped to [0 .. len]. *)
Definition relative (len i : Z) : Z :=
  if i <? 0 then Z.max (len + i) 0 else Z.min i len.

(** [a.copyWithin(target, start, end)]: the elements [start .. end-1] as they
    were before the call land at [target ..]; the length is kept. *)
Definition copyWithin (a : Uint8Array) (target start end_ : Z) : Uint8Array :=
  let len := Z.of_nat (length a) in
  let to := relative len target in
  let from := relative len start in
  let final := relative len end_ in
  let count := Z.min (final - from) (len - to) in
  if 0 <? count then
    take (Z.to_nat to) a
      ++ take (Z.to_nat count) (drop (Z.to_nat from) a)
      ++ drop (Z.to_nat (to + count)) a
  else a.

(** [target.set(source)]: a source longer than the target is a RangeError. *)
Definition set (target source : Uint8Array) : option Uint8Array :=
  if (length target <? length source)%nat then None
  else Some (source ++ drop (length source) target).

End TypedArray.

Import TypedArray.

(** ** The analyser node

    The node is seen through its current byte frequency data, one byte per
    frequency bin.  [getByteFrequencyData(array)] fills the first
    [min(bins, array.length)] cells and leaves the others alone. *)

Module Analyser.

Abbreviation AnalyserNode := (list byte).

Definition getByteFrequencyData (analyser : AnalyserNode) (array : Uint8Array)
  : Uint8Array :=
  take (length array) analyser ++ drop (length analyser) array.

End Analyser.

(** ** spectrogramAnimation.ts *)

Module Animation.

Import Loop Analyser.

(** The body of the insertion loop of [updateSpectrogramData]. *)
Definition insertStep (dataArray : Uint8Array) (frequencySamples insertStart : Z)
  (j : Z) (heights : Uint8Array) : Uint8Array :=
  if j <? frequencySamples then
    put heights (insertStart + j) (or_zero (get dataArray j))
  else
    put heights (insertStart + j) (or_zero (get heights (insertStart + j - 1))).

Definition insertColumn (dataArray heights : Uint8Array)
  (frequencySamples insertStart : Z) : Uint8Array :=
  for_le 0 frequencySamples (insertStep dataArray frequencySamples insertStart)
    heights.

(** [updateSpectrogramData]; the result is the pair of the two arrays the
    function mutates, [None] when one of its calls throws. *)
Definition updateSpectrogramData (analyser : AnalyserNode)
  (dataArray heights : Uint8Array) (frequencySamples nVertices : Z)
  : option (Uint8Array * Uint8Array) :=
  tempData ← create frequencySamples;
  let tempData := getByteFrequencyData analyser tempData in
  dataArray ← set dataArray tempData;
  let start_val := frequencySamples + 1 in
  let end_val := nVertices - start_val in
  let heights := copyWithin heights 0 start_val (nVertices + 1) in
  let insertStart := end_val - start_val in
  Some (dataArray, insertColumn dataArray heights frequencySamples insertStart).

(** The data array once [updateSpectrogramData] has read the analyser into
    it: [tempData] in front, the cells beyond it as they were. *)
Definition sampled (analyser : AnalyserNode) (dataArray : Uint8Array)
  (frequencySamples : Z) : Uint8Array :=
  let tempData :=
    getByteFrequencyData analyser
      (replicate (Z.to_nat frequencySamples) x00) in
  tempData ++ drop (length tempData) dataArray.

(** A run of the animation loop: one analyser frame per tick. *)
Fixpoint runTicks (frames : list AnalyserNode) (dataArray heights : Uint8Array)
  (frequencySamples nVertices : Z) : option (Uint8Array * Uint8Array) :=
  match frames with
  | [] => Some (dataArray, heights)
  | frame :: rest =>
      '(dataArray, heights) ←
        updateSpectrogramData frame dataArray heights frequencySamples nVertices;
      runTicks rest dataArray heights frequencySamples nVertices
  end.

End Animation.

(** ** spectrogramConfig.ts *)

Module Config.

Module CAMERA_CONFIG.
Definition FOV : Q := 27.
Definition NEAR : Q := 1.
Definition FAR : Q := 1000.
End CAMERA_CONFIG.

Module RENDERER_CONFIG.
Definition DEFAULT_WIDTH : Z := 950.
Definition DEFAULT_HEIGHT : Z := 800.
End RENDERER_CONFIG.

Module ANALYSER_CONFIG.
Definition SMOOTHING_TIME_CONSTANT : Q := 0.5.
Definition FFT_MULTIPLIER : Z := 4.
Definition MIN_FFT_SIZE : Z := 256.
Definition MAX_FFT_SIZE : Z := 16384.
End ANALYSER_CONFIG.

(** The keys of [COLOR_SCHEME_VALUES]. *)
Inductive ColorScheme :=
  | green_red | purple_yellow | blue_cyan | purple | red_yellow | blue_magenta
  | rainbow | grayscale | orange_red | cyan_blue | yellow_green.

Definition COLOR_SCHEME_VALUES (c : ColorScheme) : Z :=
  match c with
  | green_red => 0
  | purple_yellow => 1
  | blue_cyan => 2
  | purple => 3
  | red_yellow => 4
  | blue_magenta => 5
  | rainbow => 6
  | grayscale => 7
  | orange_red => 8
  | cyan_blue => 9
  | yellow_green => 10
  end.

End Config.

(** ** The host's [Math] object

    [Math.log], [Math.pow] and [Math.E] have no rational values: the geometry
    code is embedded over any host that provides them. *)

Class HostMath := {
  Math_log : Q -> Q;
  Math_pow : Q -> Q -> Q;
  Math_E : Q
}.

(** [Math.round(Math.log2(value))] for an integer [value > 0].  The nearest
    integer to [log2 value] is the [k] with [2^(2k-1) <= value^2 < 2^(2k+1)]
    (a tie cannot happen, [2^(k+1/2)] is irrational); [Z.log2] is the floor of
    the binary logarithm. *)
Definition Math_round_log2 (value : Z) : Z :=
  (Z.log2 (value * value) + 1) / 2.

(** [Math.log2(value)] where [value] is a power of two, as the two size limits
    of the configuration are: exact. *)
Definition Math_log2_pow2 (value : Z) : Z := Z.log2 value.

(** ** spectrogramHelpers.ts *)

Module Helpers.

Import Config.

Definition getNearestPowerOf2 (value : Z) : Z :=
  if value <=? 0 then ANALYSER_CONFIG.MIN_FFT_SIZE
  else
    let power := Math_round_log2 value in
    2 ^ Z.max (Math_log2_pow2 ANALYSER_CONFIG.MIN_FFT_SIZE)
              (Z.min (Math_log2_pow2 ANALYSER_CONFIG.MAX_FFT_SIZE) power).

Definition calculateFFTSize (frequencySamples : Z) : Z :=
  getNearestPowerOf2 (ANALYSER_CONFIG.FFT_MULTIPLIER * frequencySamples).

Definition calculateVertexCount (frequencySamples timeSamples : Z) : Z :=
  (frequencySamples + 1) * (timeSamples + 1).

Record Params := {
  xsize : Q;
  ysize : Q;
  frequencySamples : Z;
  timeSamples : Z
}.

Record Validation := {
  valid : bool;
  errors : list string
}.

Definition validateParameters (params : Params) : Validation :=
  let errors : list string := [] in
  let errors :=
    if Qle_bool (xsize params) 0
    then errors ++ ["xsize must be greater than 0"%string] else errors in
  let errors :=
    if Qle_bool (ysize params) 0
    then errors ++ ["ysize must be greater than 0"%string] else errors in
  let errors :=
    if frequencySamples params <=? 0
    then errors ++ ["frequencySamples must be greater than 0"%string]
    else errors in
  let errors :=
    if timeSamples params <=? 0
    then errors ++ ["timeSamples must be greater than 0"%string] else errors in
  {| valid := (length errors =? 0)%nat; errors := errors |}.

Definition calculateLogarithmicY `{HostMath}
  (segmentIndex totalSegments : Z) (ysize : Q) : Q :=
  let ypow_max := Math_log ysize in
  let yhalfSize := (ysize / 2)%Q in
  let powr :=
    ((inject_Z (totalSegments - segmentIndex) / inject_Z totalSegments)
       * ypow_max)%Q in
  (- Math_pow Math_E powr + yhalfSize + 1)%Q.

(** [COLOR_SCHEME_VALUES[colorScheme] ?? COLOR_SCHEME_VALUES.purple]: every
    key of the table has a value, the fallback is never taken. *)
Definition getColorSchemeValue (colorScheme : ColorScheme) : Z :=
  COLOR_SCHEME_VALUES colorScheme.

End Helpers.

(** ** spectrogramGeometry.ts *)

Module Geometry.

Import Loop Helpers.

Record VertexData := {
  vd_vertices : list Q;
  vd_heights : Uint8Array;
  vd_nVertices : Z
}.

(** The body of the inner loop of [generateVertices]: one vertex pushed, one
    height cell cleared. *)
Definition vertexStep `{HostMath} (ysegments : Z) (ysize x : Q) (i j : Z)
  (st : list Q * Uint8Array) : list Q * Uint8Array :=
  let y := calculateLogarithmicY j ysegments ysize in
  (st.1 ++ [x; y; 0%Q], put st.2 (i * (ysegments + 1) + j) x00).

Definition generateVertices `{HostMath} (params : Params) : option VertexData :=
  let xsegments := timeSamples params in
  let ysegments := frequencySamples params in
  let xhalfSize := (xsize params / 2)%Q in
  let xsegmentSize := (xsize params / inject_Z xsegments)%Q in
  let nVertices := (frequencySamples params + 1) * (timeSamples params + 1) in
  heights ← create nVertices;
  let st :=
    for_le 0 xsegments (fun i st =>
      let x := (inject_Z i * xsegmentSize - xhalfSize)%Q in
      for_le 0 ysegments (vertexStep ysegments (ysize params) x i) st)
      ([], heights) in
  Some {| vd_vertices := st.1; vd_heights := st.2; vd_nVertices := nVertices |}.

(** The body of the inner loop of [generateIndices]: the two triangles of
    the quad [(i, j)]. *)
Definition quadStep (ysegments i j : Z) (indices : list Z) : list Z :=
  let a := i * (ysegments + 1) + (j + 1) in
  let b := i * (ysegments + 1) + j in
  let c := (i + 1) * (ysegments + 1) + j in
  let d := (i + 1) * (ysegments + 1) + (j + 1) in
  (indices ++ [a; b; d]) ++ [b; c; d].

Definition generateIndices (timeSamples frequencySamples : Z) : list Z :=
  let xsegments := timeSamples in
  let ysegments := frequencySamples in
  for_lt 0 xsegments (fun i indices =>
    for_lt 0 ysegments (quadStep ysegments i) indices) [].

(** The [k]-th item of a flat attribute array of item size 3, as the
    renderer reads positions and triangles. *)
Definition itemAt {A : Type} (array : list A) (k : Z) : option (A * A * A) :=
  if k <? 0 then None
  else
    let n := Z.to_nat (3 * k) in
    match array !! n, array !! (n + 1)%nat, array !! (n + 2)%nat with
    | Some x, Some y, Some z => Some (x, y, z)
    | _, _, _ => None
    end.

(** [THREE.BufferGeometry] with its three attributes. *)
Record BufferGeometry := {
  position : list Q;
  index : list Z;
  displacement : Uint8Array
}.

Record GeometryData := {
  geometry : BufferGeometry;
  vertices : list Q;
  heights : Uint8Array;
  nVertices : Z
}.

Definition createGeometry `{HostMath} (params : Params) : option GeometryData :=
  vd ← generateVertices params;
  let indices :=
    generateIndices (timeSamples params) (frequencySamples params) in
  let geometry :=
    {| position := vd_vertices vd; index := indices;
       displacement := vd_heights vd |} in
  Some {| geometry := geometry; vertices := vd_vertices vd;
          heights := vd_heights vd; nVertices := vd_nVertices vd |}.

End Geometry.

(** ** spectrogramShaders.ts: the fragment shader *)

Module Shaders.

Record vec3 := Vec3 { red : Q; green : Q; blue : Q }.
Record vec4 := Vec4 { rgb : vec3; alpha : Q }.

(** [x < y] on floats. *)
Definition lt (x y : Q) : bool := negb (Qle_bool y x).

(** [vec3 + float]: the float is added to every component. *)
Definition vec3_add (v : vec3) (s : Q) : vec3 :=
  Vec3 (red v + s) (green v + s) (blue v + s).

Local Open Scope Q_scope.

Definition getColor (colorScheme : Z) (intensity : Q) : vec3 :=
  if (colorScheme =? 0)%Z then
    Vec3 intensity (1.0 - intensity) 0.0
  else if (colorScheme =? 1)%Z then
    if lt intensity 0.5 then
      Vec3 (intensity * 2.0 * 0.5) (intensity * 2.0 * 0.2)
           (intensity * 2.0 * 1.0)
    else
      Vec3 (0.5 + (intensity - 0.5) * 2.0 * 0.5)
           (0.2 + (intensity - 0.5) * 2.0 * 0.8)
           (1.0 - (intensity - 0.5) * 2.0 * 0.5)
  else if (colorScheme =? 2)%Z then
    Vec3 0.0 intensity 1.0
  else if (colorScheme =? 3)%Z then
    let purpleR := 0.2627 in
    let purpleG := 0.2471 in
    let purpleB := 0.5059 in
    Vec3 (purpleR * (0.3 + intensity * 0.7))
         (purpleG * (0.3 + intensity * 0.7))
         (purpleB * (0.3 + intensity * 0.7))
  else if (colorScheme =? 4)%Z then
    Vec3 1.0 intensity 0.0
  else if (colorScheme =? 5)%Z then
    Vec3 intensity 0.0 1.0
  else if (colorScheme =? 6)%Z then
    let hue := intensity * 5.0 in
    if lt hue 1.0 then Vec3 1.0 hue 0.0
    else if lt hue 2.0 then Vec3 (2.0 - hue) 1.0 0.0
    else if lt hue 3.0 then Vec3 0.0 1.0 (hue - 2.0)
    else if lt hue 4.0 then Vec3 0.0 (4.0 - hue) 1.0
    else if lt hue 5.0 then Vec3 (hue - 4.0) 0.0 1.0
    else Vec3 1.0 0.0 (6.0 - hue)
  else if (colorScheme =? 7)%Z then
    Vec3 intensity intensity intensity
  else if (colorScheme =? 8)%Z then
    Vec3 1.0 (0.5 * (1.0 - intensity)) 0.0
  else if (colorScheme =? 9)%Z then
    Vec3 0.0 (1.0 - intensity) 1.0
  else if (colorScheme =? 10)%Z then
    Vec3 (1.0 - intensity) 1.0 0.0
  else
    let purpleR := 0.2627 in
    let purpleG := 0.2471 in
    let purpleB := 0.5059 in
    Vec3 (purpleR * (0.3 + intensity * 0.7))
         (purpleG * (0.3 + intensity * 0.7))
         (purpleB * (0.3 + intensity * 0.7)).

(** [main]: the value written to [gl_FragColor]. *)
Definition main (colorScheme : Z) (vDisplacement : Q) : vec4 :=
  let intensity := vDisplacement / 255.0 in
  let color := getColor colorScheme intensity in
  let glow := if lt 0.5 intensity then (intensity - 0.5) * 0.5 else 0.0 in
  let finalColor := vec3_add color glow in
  let finalColor :=
    if lt intensity 0.01 then
      if (colorScheme =? 0)%Z then Vec3 0.0 0.1 0.0
      else if (colorScheme =? 1)%Z then Vec3 0.05 0.0 0.1
      else if (colorScheme =? 2)%Z then Vec3 0.0 0.0 0.1
      else if (colorScheme =? 3)%Z then Vec3 0.08 0.07 0.15
      else if (colorScheme =? 4)%Z then Vec3 0.1 0.0 0.0
      else if (colorScheme =? 5)%Z then Vec3 0.0 0.0 0.1
      else if (colorScheme =? 6)%Z then Vec3 0.05 0.0 0.0
      else if (colorScheme =? 7)%Z then Vec3 0.05 0.05 0.05
      else if (colorScheme =? 8)%Z then Vec3 0.1 0.05 0.0
      else if (colorScheme =? 9)%Z then Vec3 0.0 0.1 0.1
      else if (colorScheme =? 10)%Z then Vec3 0.1 0.1 0.0
      else Vec3 0.08 0.07 0.15
    else finalColor in
  Vec4 finalColor 1.0.

(** The dark tints of [main], by the name of the scheme. *)
Definition darkTint (scheme : Config.ColorScheme) : vec3 :=
  match scheme with
  | Config.green_red => Vec3 0.0 0.1 0.0
  | Config.purple_yellow => Vec3 0.05 0.0 0.1
  | Config.blue_cyan => Vec3 0.0 0.0 0.1
  | Config.purple => Vec3 0.08 0.07 0.15
  | Config.red_yellow => Vec3 0.1 0.0 0.0
  | Config.blue_magenta => Vec3 0.0 0.0 0.1
  | Config.rainbow => Vec3 0.05 0.0 0.0
  | Config.grayscale => Vec3 0.05 0.05 0.05
  | Config.orange_red => Vec3 0.1 0.05 0.0
  | Config.cyan_blue => Vec3 0.0 0.1 0.1
  | Config.yellow_green => Vec3 0.1 0.1 0.0
  end.

(** Component-wise equality of colours as numbers. *)
Definition vec3_eq (u v : vec3) : Prop :=
  red u == red v /\ green u == green v /\ blue u == blue v.

End Shaders.

(** ** Completions: code that may throw *)

Module Completion.

Inductive Error := InvalidStateError | InvalidAccessError | RangeError.

Inductive completion (A : Type) :=
  | Normal (a : A)
  | Throw (e : Error).
Arguments Normal {A} a.
Arguments Throw {A} e.

Definition bind {A B} (c : completion A) (k : A -> completion B)
  : completion B :=
  match c with
  | Normal a => k a
  | Throw e => Throw e
  end.

(** [try { c } catch (e) { handler }] *)
Definition try_catch {A} (c : completion A) (handler : Error -> completion A)
  : completion A :=
  match c with
  | Normal a => Normal a
  | Throw e => handler e
  end.

Definition of_option {A} (e : Error) (o : option A) : completion A :=
  match o with
  | Some a => Normal a
  | None => Throw e
  end.

End Completion.

Import Completion.

Notation "'do' x <- c ; k" := (Completion.bind c (fun x => k))
  (at level 10, x name, c at level 100, k at level 200).

(** ** The Web Audio and Media Capture objects the teardown code touches

    Modelled from the Web Audio API: [close()] marks the context as closing
    at once and rejects when that was already done; the [state] attribute
    turns to [closed] when the promise settles, on a later turn of the event
    loop.  [disconnect()] on a node that has no connection left either does
    nothing or throws, as the node's [strict] flag says; both hosts are
    covered.  [track.stop()] never throws. *)

Module WebAudio.

Record AudioNode := {
  connected : bool;
  strict : bool
}.

Inductive AudioContextState := suspended | running | closed.

Record AudioContext := {
  state : AudioContextState;
  closeRequested : bool
}.

Inductive Promise := Fulfilled | Rejected (e : Error).

Inductive TrackState := live | ended.

Abbreviation MediaStream := (list TrackState).

Definition is_closed (s : AudioContextState) : bool :=
  match s with closed => true | _ => false end.

Definition disconnect (n : AudioNode) : completion AudioNode :=
  if connected n then Normal {| connected := false; strict := strict n |}
  else if strict n then Throw InvalidAccessError
  else Normal n.

Definition close (c : AudioContext) : AudioContext * Promise :=
  if closeRequested c || is_closed (state c)
  then (c, Rejected InvalidStateError)
  else ({| state := state c; closeRequested := true |}, Fulfilled).

(** The promise of an accepted [close()] settles. *)
Definition settle (c : AudioContext) : AudioContext :=
  if closeRequested c then {| state := closed; closeRequested := true |}
  else c.

(** [await p] inside an async function: a rejection is thrown at the
    [await]; the context is seen after the promise has settled. *)
Definition await (r : AudioContext * Promise) : completion AudioContext :=
  match r.2 with
  | Fulfilled => Normal (settle r.1)
  | Rejected e => Throw e
  end.

(** [p.catch(() => {})]: the rejection is consumed, nothing is thrown. *)
Definition catch_ignore (r : AudioContext * Promise) : AudioContext := r.1.

Definition stop (t : TrackState) : TrackState := ended.

End WebAudio.

(** ** spectrogramAudio.ts and mic/micAudio.ts: teardown *)

Module Audio.

Import WebAudio.

(** [cleanupAudio(source, audioContext)]: the result is the two objects
    after the call ([None] is [null]). *)
Definition cleanupAudio (source : option AudioNode)
  (audioContext : option AudioContext)
  : completion (option AudioNode * option AudioContext) :=
  do source <-
    match source with
    | Some node =>
        try_catch (do node' <- disconnect node; Normal (Some node'))
                  (fun _ => Normal (Some node))
    | None => Normal None
    end;
  let audioContext :=
    match audioContext with
    | Some ctx =>
        if negb (is_closed (state ctx))
        then Some (catch_ignore (close ctx))
        else Some ctx
    | None => None
    end in
  Normal (source, audioContext).

(** [stopMicrophone(stream, audioContext)]: [Throw] stands for a rejected
    promise of the async function. *)
Definition stopMicrophone (stream : option MediaStream)
  (audioContext : option AudioContext)
  : completion (option MediaStream * option AudioContext) :=
  let stream :=
    match stream with
    | Some tracks => Some (map stop tracks)
    | None => None
    end in
  do audioContext <-
    match audioContext with
    | Some ctx =>
        if negb (is_closed (state ctx))
        then try_catch (do ctx' <- await (close ctx); Normal (Some ctx'))
                       (fun _ => Normal (Some ctx))
        else Normal (Some ctx)
    | None => Normal None
    end;
  Normal (stream, audioContext).

(** The resources of a session, and the teardown calls made on them. *)
Record Resources := {
  source : option AudioNode;
  audioContext : option AudioContext;
  stream : option MediaStream
}.

Inductive TeardownCall :=
  | CallCleanupAudio
  | CallStopMicrophone
  | EventLoopTurn.

Definition step (call : TeardownCall) (r : Resources) : completion Resources :=
  match call with
  | CallCleanupAudio =>
      do sc <- cleanupAudio (source r) (audioContext r);
      Normal {| source := sc.1; audioContext := sc.2; stream := stream r |}
  | CallStopMicrophone =>
      do mc <- stopMicrophone (stream r) (audioContext r);
      Normal {| source := source r; audioContext := mc.2; stream := mc.1 |}
  | EventLoopTurn =>
      Normal {| source := source r;
                audioContext := settle <$> audioContext r;
                stream := stream r |}
  end.


Definition context_released (c : option AudioContext) : Prop :=
  forall ctx, c = Some ctx ->
    closeRequested ctx = true \/ state ctx = closed.



End Audio.

(** ** spectrogramThree.ts

    The scene graph is kept to what the component observes: the canvases
    attached to the container, the mesh of the scene, the camera and the
    renderer's size. *)

Module Three.

Import Config Helpers Geometry.

Record Container := {
  clientWidth : Z;
  childNodes : list nat
}.

Record Renderer := {
  domElement : nat;
  rendererSize : Z * Z;
  disposed : bool
}.

Record PerspectiveCamera := {
  fov : Q;
  aspect : Q;
  near : Q;
  far : Q;
  position_z : Q
}.

Record ShaderMaterial := {
  uniform_maxHeight : Q;
  uniform_colorScheme : Z
}.

Record Mesh := {
  mesh_geometry : BufferGeometry;
  mesh_material : ShaderMaterial
}.

Record Scene := { children : list Mesh }.

#[global] Instance Q_eq_dec : EqDecision Q.
Proof. solve_decision. Defined.

#[global] Instance byte_eq_decision : EqDecision byte := byte_eq_dec.

#[global] Instance ShaderMaterial_eq_dec : EqDecision ShaderMaterial.
Proof. solve_decision. Defined.

#[global] Instance BufferGeometry_eq_dec : EqDecision BufferGeometry.
Proof. solve_decision. Defined.

#[global] Instance Mesh_eq_dec : EqDecision Mesh.
Proof. solve_decision. Defined.

Record ThreeSceneState := {
  scene : Scene;
  camera : PerspectiveCamera;
  renderer : Renderer;
  mesh : Mesh;
  geometryData : GeometryData
}.

(** [container.clientWidth || RENDERER_CONFIG.DEFAULT_WIDTH] *)
Definition widthOf (container : Container) : Z :=
  if clientWidth container =? 0 then RENDERER_CONFIG.DEFAULT_WIDTH
  else clientWidth container.

Definition createScene : Scene := {| children := [] |}.

Definition createCamera (container : Container) (zoom : Q)
  : PerspectiveCamera :=
  let width := widthOf container in
  let height := RENDERER_CONFIG.DEFAULT_HEIGHT in
  {| fov := CAMERA_CONFIG.FOV;
     aspect := (inject_Z width / inject_Z height)%Q;
     near := CAMERA_CONFIG.NEAR;
     far := CAMERA_CONFIG.FAR;
     position_z := zoom |}.

(** The renderer comes with a canvas of its own, not yet in the document. *)
Definition createRenderer (container : Container) : Renderer :=
  let width := widthOf container in
  let height := RENDERER_CONFIG.DEFAULT_HEIGHT in
  {| domElement := S (max_list (childNodes container));
     rendererSize := (width, height);
     disposed := false |}.

Definition createShaderMaterial (maxHeight : Q) (colorScheme : ColorScheme)
  : ShaderMaterial :=
  let colorSchemeValue := getColorSchemeValue colorScheme in
  {| uniform_maxHeight := maxHeight; uniform_colorScheme := colorSchemeValue |}.

(** [createThreeScene]: the container after the canvas was appended, and
    the new scene state. *)
Definition createThreeScene `{HostMath} (container : Container)
  (zoom maxHeight : Q) (colorScheme : ColorScheme) (geometryParams : Params)
  : completion (Container * ThreeSceneState) :=
  let scene := createScene in
  let camera := createCamera container zoom in
  let renderer := createRenderer container in
  let container :=
    {| clientWidth := clientWidth container;
       childNodes := childNodes container ++ [domElement renderer] |} in
  do geometryData <- of_option RangeError (createGeometry geometryParams);
  let material := createShaderMaterial maxHeight colorScheme in
  let mesh :=
    {| mesh_geometry := geometry geometryData; mesh_material := material |} in
  let scene := {| children := children scene ++ [mesh] |} in
  Normal (container,
          {| scene := scene; camera := camera; renderer := renderer;
             mesh := mesh; geometryData := geometryData |}).

(** [cleanupThreeScene(renderer, mesh, scene, container)]: the canvas of the
    renderer is taken out of the container and the mesh out of the scene,
    the other children staying; disposing has no effect the component
    observes.  The result is the scene and the container after the call. *)
Definition cleanupThreeScene (renderer : option Renderer) (mesh : option Mesh)
  (scene : option Scene) (container : option Container)
  : option Scene * option Container :=
  let container :=
    match renderer, container with
    | Some renderer, Some container =>
        Some {| clientWidth := clientWidth container;
                childNodes :=
                  filter (fun e => e <> domElement renderer)
                         (childNodes container) |}
    | _, _ => container
    end in
  let scene :=
    match mesh, scene with
    | Some mesh, Some scene =>
        Some {| children := filter (fun child => child <> mesh)
                                   (children scene) |}
    | _, _ => scene
    end in
  (scene, container).

End Three.

(** ** LiveSpectrogram.tsx: the refs of the component and [initializeThree] *)

Module LiveSpectrogram.

Import Config Helpers Geometry Three.

Record Props := {
  zoom : Q;
  maxHeight : Q;
  colorScheme : ColorScheme;
  params : Params
}.

Record Refs := {
  containerRef : option Container;
  sceneRef : option Scene;
  cameraRef : option PerspectiveCamera;
  rendererRef : option Renderer;
  meshRef : option Mesh;
  heightsRef : option Uint8Array;
  dataRef : option Uint8Array;
  nVerticesRef : Z;
  resizeHandlerRef : bool;
  windowResizeListeners : nat
}.

Definition initializeThree `{HostMath} (props : Props) (refs : Refs)
  : completion Refs :=
  match containerRef refs with
  | None => Normal refs
  | Some container =>
      let validation := validateParameters (params props) in
      if negb (valid validation) then Normal refs
      else
        let cleaned :=
          cleanupThreeScene (rendererRef refs) (meshRef refs) (sceneRef refs)
            (Some container) in
        let container := default container cleaned.2 in
        do created <-
          createThreeScene container (zoom props)
            (maxHeight props) (colorScheme props) (params props);
        let threeState := created.2 in
        do data <-
          of_option RangeError (create (frequencySamples (params props)));
        Normal
          {| containerRef := Some created.1;
             sceneRef := Some (scene threeState);
             cameraRef := Some (camera threeState);
             rendererRef := Some (renderer threeState);
             meshRef := Some (mesh threeState);
             heightsRef := Some (heights (geometryData threeState));
             dataRef := Some data;
             nVerticesRef := nVertices (geometryData threeState);
             resizeHandlerRef := true;
             windowResizeListeners := S (windowResizeListeners refs) |}
  end.

End LiveSpectrogram.

(** ** The arrays the two geometry loops build, row by row

    Closed forms of the results of [generateVertices] and [generateIndices],
    proved equal to the loops below. *)

Module Rows.

Import Loop Helpers Geometry.

(** The x coordinate of time column [i]. *)
Definition xOf (params : Params) (i : Z) : Q :=
  (inject_Z i * (xsize params / inject_Z (timeSamples params))
   - xsize params / 2)%Q.

(** The three numbers pushed for the grid point [(i, j)]. *)
Definition tripleOf `{HostMath} (params : Params) (i j : Z) : list Q :=
  [xOf params i;
   calculateLogarithmicY j (frequencySamples params) (ysize params);
   0%Q].

Definition rowOf `{HostMath} (params : Params) (i : Z) : list Q :=
  for_le 0 (frequencySamples params) (fun j a => a ++ tripleOf params i j) [].

(** The six indices pushed for the quad [(i, j)]. *)
Definition quadOf (ysegments i j : Z) : list Z :=
  let a := i * (ysegments + 1) + (j + 1) in
  let b := i * (ysegments + 1) + j in
  let c := (i + 1) * (ysegments + 1) + j in
  let d := (i + 1) * (ysegments + 1) + (j + 1) in
  [a; b; d; b; c; d].

Definition quadRowOf (ysegments i : Z) : list Z :=
  for_lt 0 ysegments (fun j a => a ++ quadOf ysegments i j) [].

End Rows.

(** A crude rational host, enough to run the geometry code on examples. *)
Definition rational_host : HostMath :=
  {| Math_log := fun x => (x - 1)%Q;
     Math_pow := fun b p => (1 + p * (b - 1))%Q;
     Math_E := 2.718281828459045%Q |}.


(** ** RadioPlayer.tsx: the FFT size shown and the colour scheme buttons *)

#[global] Instance ColorScheme_eq_dec : EqDecision Config.ColorScheme.
Proof. solve_decision. Defined.

Module JsArray.

(** [array[i]]: [undefined] outside [0 .. length-1]. *)
Definition item {A : Type} (array : list A) (i : Z) : option A :=
  if i <? 0 then None else array !! Z.to_nat i.

(** [array.indexOf(x)]: the first index that holds [x], -1 when none does. *)
Definition indexOf {A : Type} `{EqDecision A} (array : list A) (x : A) : Z :=
  match list_find (fun y => y = x) array with
  | Some (i, _) => Z.of_nat i
  | None => -1
  end.

End JsArray.

Module RadioPlayer.

Import Config JsArray.

(** The component's own copy of the helper, with the limits written as
    exponents. *)
Definition getNearestPowerOf2 (value : Z) : Z :=
  if value <=? 0 then 256
  else
    let power := Math_round_log2 value in
    2 ^ Z.max 8 (Z.min 14 power).

Definition FFT_SIZE (frequencySamples : Z) : Z :=
  getNearestPowerOf2 (4 * frequencySamples).

Definition colorSchemes : list ColorScheme :=
  [purple; green_red; purple_yellow; blue_cyan; red_yellow; blue_magenta;
   rainbow; grayscale; orange_red; cyan_blue; yellow_green].

(** The handlers give the value they pass to [setColorScheme]; [None] is
    [undefined]. *)
Definition handleColorSchemePrev (colorScheme : ColorScheme)
  : option ColorScheme :=
  let currentIndex := indexOf colorSchemes colorScheme in
  let prevIndex :=
    if currentIndex =? 0 then Z.of_nat (length colorSchemes) - 1
    else currentIndex - 1 in
  item colorSchemes prevIndex.

Definition handleColorSchemeNext (colorScheme : ColorScheme)
  : option ColorScheme :=
  let currentIndex := indexOf colorSchemes colorScheme in
  let nextIndex :=
    if currentIndex =? Z.of_nat (length colorSchemes) - 1 then 0
    else currentIndex + 1 in
  item colorSchemes nextIndex.

End RadioPlayer.

(** ** spectrogramShaders.ts: the vertex shader *)

Module VertexShader.

Record position3 := Position { x : Q; y : Q; z : Q }.

(** What [main] computes for one vertex: the two varyings and the displaced
    position that the projection is applied to. *)
Record VertexOutput := {
  vDisplacement : Q;
  vPosition : position3;
  newPosition : position3
}.

Local Open Scope Q_scope.

Definition main (maxHeight : Q) (position : position3) (displacement : Q)
  : VertexOutput :=
  let vDisplacement := displacement in
  let vPosition := position in
  let newPosition := position in
  let newPosition :=
    Position (x newPosition) (y newPosition)
             (z newPosition + displacement * maxHeight / 255.0) in
  {| vDisplacement := vDisplacement; vPosition := vPosition;
     newPosition := newPosition |}.

(** The value the shader sees for a cell of the [Uint8Array] attribute (the
    attribute is not normalized). *)
Definition attributeValue (cell : byte) : Q :=
  inject_Z (Z.of_N (Byte.to_N cell)).

End VertexShader.

(** ** JavaScript errors and strings *)

Module Js.

Local Open Scope string_scope.

(** An error value, seen through the two fields the code reads. *)
Record JsError := {
  name : string;
  message : string
}.

(** [new Error(message)] *)
Definition newError (message : string) : JsError :=
  {| name := "Error"; message := message |}.

Inductive attempt (A : Type) :=
  | Returned (a : A)
  | Raised (e : JsError).
Arguments Returned {A} a.
Arguments Raised {A} e.

Definition andThen {A B} (c : attempt A) (k : A -> attempt B) : attempt B :=
  match c with
  | Returned a => k a
  | Raised e => Raised e
  end.

(** [s.includes(part)] *)
Definition includes (s part : string) : bool :=
  match String.index 0 part s with
  | Some _ => true
  | None => false
  end.

(** A string used as a condition: the empty string is falsy. *)
Definition truthy (s : string) : bool := negb (String.eqb s "").

End Js.

(** ** The Web Audio calls of the set-up code

    Modelled from the Web Audio API.  What the host decides (the state of a
    new context, the errors it throws, whether [disconnect] is strict) is a
    field of [AudioHost]; the properties hold for every host. *)

#[global] Instance TrackState_eq_dec : EqDecision WebAudio.TrackState.
Proof. solve_decision. Defined.

Class AudioHost := {
  new_context_state : WebAudio.AudioContextState;
  strict_disconnect : bool;
  index_size_error : Js.JsError;
  element_bound_error : Js.JsError;
  stream_source_error : Js.JsError
}.

Module WebAudioNodes.

Import Js WebAudio.

(** An analyser node: its two settings, and whether it feeds the
    destination of its context. *)
Record AnalyserState := {
  fftSize : Z;
  smoothingTimeConstant : Q;
  toDestination : bool
}.

Definition createAnalyser : AnalyserState :=
  {| fftSize := 2048; smoothingTimeConstant := 0.8; toDestination := false |}.

Definition is_power_of_two (v : Z) : bool :=
  (0 <? v) && (2 ^ Z.log2 v =? v).

(** [analyser.fftSize = v]: a power of two from 32 to 32768, or an
    IndexSizeError. *)
Definition set_fftSize `{AudioHost} (a : AnalyserState) (v : Z)
  : attempt AnalyserState :=
  if (32 <=? v) && (v <=? 32768) && is_power_of_two v
  then Returned {| fftSize := v;
                   smoothingTimeConstant := smoothingTimeConstant a;
                   toDestination := toDestination a |}
  else Raised index_size_error.

(** [analyser.smoothingTimeConstant = v]: from 0 to 1, or an
    IndexSizeError. *)
Definition set_smoothingTimeConstant `{AudioHost} (a : AnalyserState) (v : Q)
  : attempt AnalyserState :=
  if Qle_bool 0 v && Qle_bool v 1
  then Returned {| fftSize := fftSize a; smoothingTimeConstant := v;
                   toDestination := toDestination a |}
  else Raised index_size_error.

Definition frequencyBinCount (a : AnalyserState) : Z := fftSize a / 2.

(** An audio element can feed one source node in its life. *)
Record MediaElement := { boundToSource : bool }.

Definition hostCreateMediaElementSource `{AudioHost} (element : MediaElement)
  : attempt (AudioNode * MediaElement) :=
  if boundToSource element then Raised element_bound_error
  else Returned ({| connected := false; strict := strict_disconnect |},
                 {| boundToSource := true |}).

(** [createMediaStreamSource] needs a context that is not closed or closing
    and a stream with a track. *)
Definition hostCreateMediaStreamSource `{AudioHost} (ctx : AudioContext)
  (stream : list TrackState) : attempt AudioNode :=
  if closeRequested ctx || is_closed (state ctx) || bool_decide (stream = [])
  then Raised stream_source_error
  else Returned {| connected := false; strict := strict_disconnect |}.

(** [node.connect(...)] *)
Definition connect (n : AudioNode) : AudioNode :=
  {| connected := true; strict := strict n |}.

(** [audioContext.resume()]: rejected on a context that is closed or
    closing, else the context runs. *)
Definition resume (c : AudioContext) : AudioContext * Promise :=
  if closeRequested c || is_closed (state c)
  then (c, Rejected InvalidStateError)
  else ({| state := running; closeRequested := false |}, Fulfilled).

End WebAudioNodes.

(** ** spectrogramAudio.ts: setting the radio pipeline up *)

Module AudioPipeline.

Import Config Helpers Js WebAudio WebAudioNodes.

Local Open Scope string_scope.

Record AudioPipelineState := {
  audioContext : AudioContext;
  analyser : AnalyserState;
  source : AudioNode;
  bufferLength : Z
}.

Definition createAudioContext `{AudioHost} (fftSize : Z)
  : attempt (AudioContext * AnalyserState) :=
  let audioContext :=
    {| state := new_context_state; closeRequested := false |} in
  let analyser := createAnalyser in
  andThen (set_fftSize analyser fftSize) (fun analyser =>
  andThen (set_smoothingTimeConstant analyser
             ANALYSER_CONFIG.SMOOTHING_TIME_CONSTANT) (fun analyser =>
  Returned (audioContext, analyser))).

Definition createMediaElementSource `{AudioHost} (audioElement : MediaElement)
  : attempt (AudioNode * MediaElement) :=
  match hostCreateMediaElementSource audioElement with
  | Returned source => Returned source
  | Raised error =>
      if truthy (message error)
         && includes (message error) "already connected"
      then Raised (newError
        "Audio element already connected to a MediaElementSource. Cannot create new source.")
      else Raised error
  end.

Definition connectAudioNodes (source : AudioNode) (analyser : AnalyserState)
  : AudioNode * AnalyserState :=
  (connect source,
   {| fftSize := fftSize analyser;
      smoothingTimeConstant := smoothingTimeConstant analyser;
      toDestination := true |}).

(** [setupAudioPipeline]: the pipeline and the audio element after the
    call. *)
Definition setupAudioPipeline `{AudioHost} (audioElement : MediaElement)
  (frequencySamples : Z) : attempt (AudioPipelineState * MediaElement) :=
  let fftSize := calculateFFTSize frequencySamples in
  andThen (createAudioContext fftSize) (fun created =>
  andThen (createMediaElementSource audioElement) (fun bound =>
  let connected := connectAudioNodes bound.1 created.2 in
  Returned ({| audioContext := created.1;
               analyser := connected.2;
               source := connected.1;
               bufferLength := frequencyBinCount connected.2 |},
            bound.2))).

End AudioPipeline.

(** ** mic/micAudio.ts and mic/micConfig.ts

    A microphone stream holds audio tracks only, so [getAudioTracks] and
    [getTracks] are the same list. *)

Module MicAudio.

Import Config Helpers Js WebAudio WebAudioNodes.

Local Open Scope string_scope.

Module MIC_ERROR_MESSAGES.
Definition PERMISSION_DENIED : string :=
  "Microphone permission denied. Please allow microphone access.".
Definition NOT_FOUND : string :=
  "No microphone found. Please connect a microphone.".
Definition NOT_READABLE : string :=
  "Microphone is not readable. It may be in use by another application.".
Definition GENERIC : string :=
  "Failed to access microphone. Please check your microphone permissions.".
End MIC_ERROR_MESSAGES.

Record MicAudioPipeline := {
  audioContext : AudioContext;
  analyser : AnalyserState;
  source : AudioNode;
  bufferLength : Z
}.

Definition hasActiveAudioTracks (stream : list TrackState) : bool :=
  let activeTracks := filter (fun track => track = live) stream in
  (0 <? length activeTracks)%nat.

Definition isAudioContextValid (audioContext : option AudioContext) : bool :=
  match audioContext with
  | None => false
  | Some ctx => negb (is_closed (state ctx))
  end.

(** [ensureAudioContextRunning]: the context after the call and the boolean
    the promise resolves to. *)
Definition ensureAudioContextRunning (audioContext : AudioContext)
  : AudioContext * bool :=
  match state audioContext with
  | suspended =>
      let resumed := resume audioContext in
      match resumed.2 with
      | Fulfilled => (resumed.1, true)
      | Rejected _ => (resumed.1, false)
      end
  | _ => (audioContext, true)
  end.

Definition createMicAudioPipeline `{AudioHost} (stream : list TrackState)
  (audioContext : AudioContext) (frequencySamples : Z)
  : attempt MicAudioPipeline :=
  if negb (hasActiveAudioTracks stream)
  then Raised (newError "No active audio tracks in microphone stream")
  else if negb (isAudioContextValid (Some audioContext))
  then Raised (newError "Audio context is closed")
  else
    let fftSize := calculateFFTSize frequencySamples in
    let analyser := createAnalyser in
    andThen (set_fftSize analyser fftSize) (fun analyser =>
    andThen (set_smoothingTimeConstant analyser
               ANALYSER_CONFIG.SMOOTHING_TIME_CONSTANT) (fun analyser =>
    andThen (hostCreateMediaStreamSource audioContext stream) (fun source =>
    let source := connect source in
    Returned {| audioContext := audioContext;
                analyser := analyser;
                source := source;
                bufferLength := frequencyBinCount analyser |}))).

(** [getMicrophoneErrorMessage(error)]; [None] is a missing error, a missing
    field of the error reads as the empty string. *)
Definition getMicrophoneErrorMessage (error : option JsError) : string :=
  match error with
  | None => MIC_ERROR_MESSAGES.GENERIC
  | Some error =>
      let errorName := name error in
      let errorMessage := message error in
      if String.eqb errorName "NotAllowedError"
         || String.eqb errorName "PermissionDeniedError"
      then MIC_ERROR_MESSAGES.PERMISSION_DENIED
      else if String.eqb errorName "NotFoundError"
              || String.eqb errorName "DevicesNotFoundError"
      then MIC_ERROR_MESSAGES.NOT_FOUND
      else if String.eqb errorName "NotReadableError"
              || String.eqb errorName "TrackStartError"
      then MIC_ERROR_MESSAGES.NOT_READABLE
      else if truthy errorMessage then errorMessage
      else MIC_ERROR_MESSAGES.GENERIC
  end.

End MicAudio.

(** ** LiveSpectrogram.tsx: [cleanup]

    The refs of the component that [initializeThree] does not touch, and the
    clean-up over all of them.  A ref holds the object it points to; what
    [cleanup] did to the source node and to the audio context is given
    beside the refs, since the refs themselves are cleared and the context of
    the microphone belongs to the player. *)

Module Cleanup.

Import WebAudio Audio WebAudioNodes Three LiveSpectrogram.

Record AudioRefs := {
  animationFrameRef : option nat;
  audioContextRef : option AudioContext;
  analyserRef : option AnalyserState;
  sourceRef : option AudioNode;
  connectedAudioElementRef : option MediaElement;
  connectedMicStreamRef : option (list TrackState)
}.

Record ComponentRefs := {
  three : Refs;
  audio : AudioRefs
}.

Record CleanedUp := {
  refsAfter : ComponentRefs;
  sourceAfter : option AudioNode;
  contextAfter : option AudioContext
}.

(** [if (animationFrameRef.current)]: a frame id, and not the id 0. *)
Definition pendingFrame (ref : option nat) : bool :=
  match ref with
  | Some id => negb (id =? 0)%nat
  | None => false
  end.

Definition cleanup (refs : ComponentRefs) : completion CleanedUp :=
  let t := three refs in
  let a := audio refs in
  let animationFrame :=
    if pendingFrame (animationFrameRef a) then None
    else animationFrameRef a in
  let listeners :=
    if resizeHandlerRef t then Nat.pred (windowResizeListeners t)
    else windowResizeListeners t in
  do torn <-
    match connectedMicStreamRef a with
    | Some _ =>
        do source <-
          match sourceRef a with
          | Some node =>
              try_catch (do node' <- disconnect node; Normal (Some node'))
                        (fun _ => Normal (Some node))
          | None => Normal None
          end;
        Normal (source, audioContextRef a, audioContextRef a)
    | None =>
        do cleaned <- cleanupAudio (sourceRef a) (audioContextRef a);
        let context :=
          match cleaned.2 with
          | Some ctx => Some (catch_ignore (close ctx))
          | None => None
          end in
        Normal (cleaned.1, context, None)
    end;
  let cleaned :=
    cleanupThreeScene (rendererRef t) (meshRef t) (sceneRef t)
      (containerRef t) in
  Normal
    {| refsAfter :=
         {| three :=
              {| containerRef := cleaned.2;
                 sceneRef := None;
                 cameraRef := None;
                 rendererRef := None;
                 meshRef := None;
                 heightsRef := None;
                 dataRef := None;
                 nVerticesRef := nVerticesRef t;
                 resizeHandlerRef := false;
                 windowResizeListeners := listeners |};
            audio :=
              {| animationFrameRef := animationFrame;
                 audioContextRef := torn.2;
                 analyserRef := None;
                 sourceRef := None;
                 connectedAudioElementRef := None;
                 connectedMicStreamRef := None |} |};
       sourceAfter := torn.1.1;
       contextAfter := torn.1.2 |}.

End Cleanup.

(** ** LiveSpectrogram.tsx: [startAnimation] and its [animate]

    [heightsRef] holds the heights buffer.  The displacement attribute of
    the mesh has an array of its own, which [THREE.Uint8BufferAttribute]
    copied from the heights buffer when the geometry was built; a tick
    writes the heights buffer and [updateMeshDisplacement] then copies it
    into the array of the attribute.  The mesh is one object, which
    [meshRef] and the scene hold. *)

Module AnimationLoop.

Import TypedArray Animation Geometry Three LiveSpectrogram Cleanup.

Definition withDisplacement (array : list byte) (mesh : Mesh) : Mesh :=
  {| mesh_geometry :=
       {| position := position (mesh_geometry mesh);
          index := index (mesh_geometry mesh);
          displacement := array |};
     mesh_material := mesh_material mesh |}.

(** [updateMeshDisplacement] of spectrogramAnimation.ts: [array.set(heights)]
    on the array of the attribute, which is then flagged for upload. *)
Definition updateMeshDisplacement (mesh : Mesh) (heights : list byte)
  : completion Mesh :=
  do array <-
    of_option RangeError (set (displacement (mesh_geometry mesh)) heights);
  Normal (withDisplacement array mesh).

Definition withThree (refs : ComponentRefs) (t : Refs) : ComponentRefs :=
  {| three := t; audio := audio refs |}.

Definition withFrame (refs : ComponentRefs) (frame : option nat)
  : ComponentRefs :=
  {| three := three refs;
     audio :=
       {| animationFrameRef := frame;
          audioContextRef := audioContextRef (audio refs);
          analyserRef := analyserRef (audio refs);
          sourceRef := sourceRef (audio refs);
          connectedAudioElementRef := connectedAudioElementRef (audio refs);
          connectedMicStreamRef := connectedMicStreamRef (audio refs) |} |}.

(** One run of [animate]: [analyserData] is what the analyser yields on this
    frame and [nextFrame] the id that [requestAnimationFrame] returns. *)
Definition animate (frequencySamples : Z) (analyserData : list byte)
  (nextFrame : nat) (refs : ComponentRefs) : completion ComponentRefs :=
  let t := three refs in
  match analyserRef (audio refs), sceneRef t, cameraRef t, rendererRef t,
        meshRef t, dataRef t, heightsRef t with
  | Some _, Some scene, Some _, Some _, Some mesh, Some data, Some heights =>
      do ticked <-
        of_option RangeError
          (updateSpectrogramData analyserData data heights frequencySamples
             (nVerticesRef t));
      do mesh <- updateMeshDisplacement mesh ticked.2;
      let t :=
        {| containerRef := containerRef t;
           sceneRef :=
             Some {| children := map (fun _ => mesh) (children scene) |};
           cameraRef := cameraRef t;
           rendererRef := rendererRef t;
           meshRef := Some mesh;
           heightsRef := Some ticked.2;
           dataRef := Some ticked.1;
           nVerticesRef := nVerticesRef t;
           resizeHandlerRef := resizeHandlerRef t;
           windowResizeListeners := windowResizeListeners t |} in
      Normal (withFrame (withThree refs t) (Some nextFrame))
  | _, _, _, _, _, _, _ => Normal refs
  end.

Definition startAnimation (nextFrame : nat) (refs : ComponentRefs)
  : ComponentRefs :=
  let t := three refs in
  match analyserRef (audio refs), sceneRef t, cameraRef t, rendererRef t,
        meshRef t, dataRef t, heightsRef t with
  | Some _, Some _, Some _, Some _, Some _, Some _, Some _ =>
      withFrame refs (Some nextFrame)
  | _, _, _, _, _, _, _ => refs
  end.

(** The seven refs the loop checks are set, and the buffers fit the tick. *)
Definition ready (frequencySamples : Z) (refs : ComponentRefs) : Prop :=
  let t := three refs in
  is_Some (analyserRef (audio refs)) /\ is_Some (sceneRef t) /\
  is_Some (cameraRef t) /\ is_Some (rendererRef t) /\
  exists mesh data heights,
    meshRef t = Some mesh /\ dataRef t = Some data /\
    heightsRef t = Some heights /\
    displacement (mesh_geometry mesh) = heights /\
    Z.of_nat (length heights) = nVerticesRef t /\
    frequencySamples <= Z.of_nat (length data).

End AnimationLoop.

(** ** LiveSpectrogram.tsx: the main effect

    The effect depends on the input and on the structural parameters.  When
    one of them changes React calls the clean-up that the last run of the
    effect returned, which is [cleanup], and runs the effect again; [init]
    is followed to its end.  The audio part of [init] (the resume of the
    microphone context and [initializeAudio]) awaits the host and reads and
    writes the audio refs only.  It is an argument here: from the audio refs
    it finds, the audio refs it leaves and whether it returned a state. *)

Module Effect.

Import WebAudio WebAudioNodes Three LiveSpectrogram Cleanup AnimationLoop.





End Effect.

(** ** SpectrogramControls.tsx: the sliders of the structural parameters *)

Module Controls.

Import Helpers.

Record Slider := { min : Z; max : Z; step : Z }.

Definition xsizeSlider : Slider := {| min := 20; max := 100; step := 1 |}.
Definition ysizeSlider : Slider := {| min := 10; max := 50; step := 1 |}.
Definition frequencySamplesSlider : Slider :=
  {| min := 64; max := 512; step := 64 |}.
Definition timeSamplesSlider : Slider :=
  {| min := 200; max := 1200; step := 100 |}.

(** The values a slider can take: from [min] to [max] in steps of [step]. *)
Definition offers (s : Slider) (v : Z) : bool :=
  (min s <=? v) && (v <=? max s) && ((v - min s) mod step s =? 0).

(** Parameters as the four sliders hand them to the spectrogram. *)
Definition offered (params : Params) : Prop :=
  (exists x, offers xsizeSlider x = true /\ xsize params = inject_Z x) /\
  (exists y, offers ysizeSlider y = true /\ ysize params = inject_Z y) /\
  offers frequencySamplesSlider (frequencySamples params) = true /\
  offers timeSamplesSlider (timeSamples params) = true.

End Controls.

(** A host in the manner of one browser, to run the set-up code on
    examples. *)
Definition example_audio_host : AudioHost :=
  {| new_context_state := WebAudio.suspended;
     strict_disconnect := false;
     index_size_error :=
       {| Js.name := "IndexSizeError";
          Js.message := "The FFT size provided is outside the range." |};
     element_bound_error :=
       {| Js.name := "InvalidStateError";
          Js.message :=
            "HTMLMediaElement already connected previously to a different MediaElementSourceNode." |};
     stream_source_error :=
       {| Js.name := "InvalidStateError";
          Js.message := "MediaStream has no audio track" |} |}.

(** ** Component states to run the component code on *)

Module Examples.

Import Config Helpers Geometry WebAudio WebAudioNodes Three LiveSpectrogram
  Cleanup.

Definition smallParams : Params :=
  {| xsize := 4; ysize := 2; frequencySamples := 1; timeSamples := 2 |}.

Definition smallProps : Props :=
  {| zoom := 50; maxHeight := 8; colorScheme := purple;
     params := smallParams |}.

(** A mounted component that has built nothing yet. *)
Definition mountedRefs : Refs :=
  {| containerRef := Some {| clientWidth := 0; childNodes := [] |};
     sceneRef := None; cameraRef := None; rendererRef := None;
     meshRef := None; heightsRef := None; dataRef := None;
     nVerticesRef := 0; resizeHandlerRef := false;
     windowResizeListeners := 0 |}.

Definition smallMesh : Mesh :=
  {| mesh_geometry :=
       {| position := []; index := [];
          displacement := [x00; x00; x00; x00; x00; x00] |};
     mesh_material := createShaderMaterial 8 purple |}.

(** A component drawing a grid of six vertices, its canvas (node 5) in a
    container beside another node. *)
Definition drawingRefs : Refs :=
  {| containerRef := Some {| clientWidth := 640; childNodes := [1; 5]%nat |};
     sceneRef := Some {| children := [smallMesh] |};
     cameraRef :=
       Some (createCamera {| clientWidth := 640; childNodes := [1%nat] |} 50);
     rendererRef :=
       Some {| domElement := 5; rendererSize := (640, 800);
               disposed := false |};
     meshRef := Some smallMesh;
     heightsRef := Some [x00; x00; x00; x00; x00; x00];
     dataRef := Some [x00];
     nVerticesRef := 6; resizeHandlerRef := true;
     windowResizeListeners := 1 |}.

(** The component listening to the microphone, frame 7 requested. *)
Definition micRefs : ComponentRefs :=
  {| three := drawingRefs;
     audio :=
       {| animationFrameRef := Some 7%nat;
          audioContextRef :=
            Some {| state := running; closeRequested := false |};
          analyserRef :=
            Some {| fftSize := 256; smoothingTimeConstant := 0.5;
                    toDestination := false |};
          sourceRef := Some {| connected := true; strict := false |};
          connectedAudioElementRef := None;
          connectedMicStreamRef := Some [live] |} |}.



End Examples.

(** * Properties *)

(** ** Typed arrays and loops *)

Section TypedArrayFacts.

Implicit Types (a : Uint8Array) (i k : Z) (v : byte).

Lemma relative_range len i : 0 <= len -> 0 <= relative len i <= len.
Proof. unfold relative. destruct (i <? 0) eqn:E; lia. Qed.

Lemma length_put a i v : length (put a i v) = length a.
Proof. unfold put. destruct (i <? 0); [done | apply length_insert]. Qed.

Lemma get_put_ne a i k v : i <> k -> get (put a i v) k = get a k.
Proof.
  intros Hne. unfold get, put.
  destruct (k <? 0) eqn:Ek; [done |].
  destruct (i <? 0) eqn:Ei; [done |].
  apply list_lookup_insert_ne. lia.
Qed.

Lemma get_put_eq a i v :
  0 <= i < Z.of_nat (length a) -> get (put a i v) i = Some v.
Proof.
  intros Hi. unfold get, put.
  destruct (i <? 0) eqn:Ei; [lia |].
  apply list_lookup_insert_eq. lia.
Qed.

Lemma get_replicate_zero n k :
  0 <= k < Z.of_nat n -> get (replicate n x00) k = Some x00.
Proof.
  intros Hk. unfold get. destruct (k <? 0) eqn:E; [lia |].
  apply lookup_replicate_2. lia.
Qed.

Lemma or_zero_id (b : byte) : or_zero (Some b) = b.
Proof.
  unfold or_zero. destruct (Byte.eqb b x00) eqn:E; [| done].
  symmetry. by apply Byte.byte_dec_bl.
Qed.

Lemma length_copyWithin a target start end_ :
  length (copyWithin a target start end_) = length a.
Proof.
  unfold copyWithin.
  set (len := Z.of_nat (length a)).
  pose proof (relative_range len target ltac:(lia)) as Ht.
  pose proof (relative_range len start ltac:(lia)) as Hs.
  pose proof (relative_range len end_ ltac:(lia)) as He.
  destruct (0 <? _) eqn:Hc; [| done].
  rewrite !length_app, !length_take, !length_drop. lia.
Qed.

(** Cell by cell: inside the destination window the cell holds what the
    source window held before the call, elsewhere it is untouched. *)
Lemma lookup_copyWithin a target start end_ (n : nat) :
  let len := Z.of_nat (length a) in
  let to := relative len target in
  let from := relative len start in
  let final := relative len end_ in
  let count := Z.min (final - from) (len - to) in
  copyWithin a target start end_ !! n =
    if decide (to <= Z.of_nat n < to + count)
    then a !! Z.to_nat (from + (Z.of_nat n - to))
    else a !! n.
Proof.
  intros len to from final count. unfold copyWithin.
  fold len. fold to. fold from. fold final. fold count.
  pose proof (relative_range len target ltac:(lia)) as Ht.
  pose proof (relative_range len start ltac:(lia)) as Hs.
  pose proof (relative_range len end_ ltac:(lia)) as He.
  fold to in Ht. fold from in Hs. fold final in He.
  destruct (0 <? count) eqn:Hc.
  - apply Z.ltb_lt in Hc.
    assert (count <= final - from) by lia.
    assert (count <= len - to) by lia.
    case_decide as Hin.
    + rewrite lookup_app_r by (rewrite length_take; lia).
      rewrite length_take, Nat.min_l by lia.
      rewrite lookup_app_l
        by (rewrite length_take, length_drop; lia).
      rewrite lookup_take_lt by lia.
      rewrite lookup_drop. f_equal. lia.
    + destruct (decide (Z.of_nat n < to)) as [Hlt | Hge].
      * rewrite lookup_app_l by (rewrite length_take; lia).
        apply lookup_take_lt. lia.
      * rewrite lookup_app_r by (rewrite length_take; lia).
        rewrite length_take, Nat.min_l by lia.
        rewrite lookup_app_r
          by (rewrite length_take, length_drop; lia).
        rewrite length_take, length_drop, Nat.min_l by lia.
        rewrite lookup_drop. f_equal. lia.
  - apply Z.ltb_ge in Hc. case_decide; [lia | done].
Qed.

End TypedArrayFacts.

Section LoopFacts.

Import Loop.

Context {S : Type}.
Implicit Types (body : Z -> S -> S) (s : S).

Lemma for_lt_nil lo hi body s : hi <= lo -> for_lt lo hi body s = s.
Proof.
  intros Hle. unfold for_lt.
  replace (seqZ lo (hi - lo)) with (@nil Z); [done |].
  symmetry. apply length_zero_iff_nil. rewrite length_seqZ. lia.
Qed.

Lemma for_lt_snoc lo hi body s :
  lo <= hi -> for_lt lo (hi + 1) body s = body hi (for_lt lo hi body s).
Proof.
  intros Hle. unfold for_lt.
  replace (hi + 1 - lo) with (Z.of_nat (Datatypes.S (Z.to_nat (hi - lo))))
    by lia.
  rewrite seqZ_S, foldl_app. simpl.
  replace (Z.of_nat (Z.to_nat (hi - lo))) with (hi - lo) by lia.
  f_equal. lia.
Qed.

(** Loop invariant indexed by the loop counter. *)
Lemma for_lt_ind (P : Z -> S -> Prop) lo hi body s :
  lo <= hi ->
  P lo s ->
  (forall i t, lo <= i < hi -> P i t -> P (i + 1) (body i t)) ->
  P hi (for_lt lo hi body s).
Proof.
  intros Hle Hinit Hstep.
  remember (Z.to_nat (hi - lo)) as n eqn:Hn.
  revert hi Hle Hn Hstep.
  induction n as [| n IH]; intros hi Hle Hn Hstep.
  - assert (hi = lo) as -> by lia. by rewrite for_lt_nil.
  - replace hi with (hi - 1 + 1) by lia.
    rewrite for_lt_snoc by lia.
    apply Hstep; [lia |].
    apply IH; [lia | lia |].
    intros i t Hi. apply Hstep. lia.
Qed.

(** Loop invariant that does not mention the counter; the loop may run
    zero times. *)
Lemma for_lt_inv (P : S -> Prop) lo hi body s :
  P s ->
  (forall i t, lo <= i < hi -> P t -> P (body i t)) ->
  P (for_lt lo hi body s).
Proof.
  intros Hinit Hstep.
  destruct (Z.le_gt_cases lo hi) as [Hle | Hgt].
  - by apply (for_lt_ind (fun _ => P)).
  - rewrite for_lt_nil by lia. done.
Qed.

End LoopFacts.

(** Loops that only push onto an array. *)

Section AppendLoops.

Import Loop.

Context {A : Type}.
Implicit Types (blk : Z -> list A) (acc : list A).

Lemma for_lt_ext {S : Type} lo hi (body body' : Z -> S -> S) s :
  (forall i t, lo <= i < hi -> body i t = body' i t) ->
  for_lt lo hi body s = for_lt lo hi body' s.
Proof.
  intros Hext. destruct (Z.le_gt_cases lo hi) as [Hle | Hgt].
  - apply (for_lt_ind (fun n t => t = for_lt lo n body' s)); [done | |].
    + by rewrite for_lt_nil.
    + intros i t Hi ->. rewrite for_lt_snoc by lia. apply Hext. lia.
  - by rewrite !for_lt_nil by lia.
Qed.

(** The first component of a loop over pairs, when the body computes it
    from the first component alone. *)
Lemma for_lt_fst {S T : Type} lo hi (body : Z -> S * T -> S * T)
    (f : Z -> S -> S) st :
  (forall i t, lo <= i < hi -> (body i t).1 = f i t.1) ->
  (for_lt lo hi body st).1 = for_lt lo hi f st.1.
Proof.
  intros Hfst. destruct (Z.le_gt_cases lo hi) as [Hle | Hgt].
  - apply (for_lt_ind (fun n t => t.1 = for_lt lo n f st.1)); [done | |].
    + by rewrite for_lt_nil.
    + intros i t Hi Ht. rewrite for_lt_snoc by lia.
      rewrite Hfst by lia. by rewrite Ht.
  - by rewrite !for_lt_nil by lia.
Qed.

Lemma for_lt_app_acc blk lo hi acc :
  for_lt lo hi (fun i a => a ++ blk i) acc
  = acc ++ for_lt lo hi (fun i a => a ++ blk i) [].
Proof.
  destruct (Z.le_gt_cases lo hi) as [Hle | Hgt].
  - apply (for_lt_ind
      (fun n t => t = acc ++ for_lt lo n (fun i a => a ++ blk i) []));
      [done | |].
    + rewrite for_lt_nil by lia. by rewrite app_nil_r.
    + intros i t Hi ->. rewrite for_lt_snoc by lia. by rewrite app_assoc.
  - rewrite !for_lt_nil by lia. by rewrite app_nil_r.
Qed.

(** Blocks of one size [n]: the result is the blocks laid end to end. *)
Lemma for_lt_blocks blk (n : nat) lo hi :
  lo <= hi ->
  (forall i, lo <= i < hi -> length (blk i) = n) ->
  let r := for_lt lo hi (fun i a => a ++ blk i) [] in
  length r = (n * Z.to_nat (hi - lo))%nat /\
  forall i (c : nat), lo <= i < hi -> (c < n)%nat ->
    r !! (n * Z.to_nat (i - lo) + c)%nat = blk i !! c.
Proof.
  intros Hle Hlen. cbv zeta.
  apply (for_lt_ind (fun m t =>
    (forall i, lo <= i < m -> length (blk i) = n) ->
    length t = (n * Z.to_nat (m - lo))%nat /\
    forall i (c : nat), lo <= i < m -> (c < n)%nat ->
      t !! (n * Z.to_nat (i - lo) + c)%nat = blk i !! c)); [done | | | done].
  - intros _. split; [simpl; lia | intros; lia].
  - intros m t Hm IH Hl.
    destruct IH as [IHlen IHget]; [intros; apply Hl; lia |].
    split.
    + rewrite length_app, IHlen, Hl by lia.
      replace (Z.to_nat (m + 1 - lo)) with (Datatypes.S (Z.to_nat (m - lo)))
        by lia.
      lia.
    + intros i c Hi Hc. destruct (decide (i = m)) as [-> | Hne].
      * rewrite lookup_app_r by lia. f_equal. lia.
      * rewrite lookup_app_l; [apply IHget; [lia | done] |].
        rewrite IHlen.
        assert (Z.to_nat (i - lo) < Z.to_nat (m - lo))%nat by lia. nia.
Qed.

End AppendLoops.

(** ** The scroll buffer updater *)

Section AnimationFacts.

Import Loop Analyser Animation.

Implicit Types (analyser dataArray heights : Uint8Array).
Implicit Types (frequencySamples nVertices insertStart : Z).

Lemma length_insertStep dataArray frequencySamples insertStart j heights :
  length (insertStep dataArray frequencySamples insertStart j heights)
  = length heights.
Proof. unfold insertStep. destruct (j <? _); apply length_put. Qed.

Lemma get_insertStep_ne dataArray frequencySamples insertStart j heights k :
  k <> insertStart + j ->
  get (insertStep dataArray frequencySamples insertStart j heights) k
  = get heights k.
Proof.
  intros Hne. unfold insertStep.
  destruct (j <? _); apply get_put_ne; lia.
Qed.

Lemma length_insertColumn dataArray heights frequencySamples insertStart :
  length (insertColumn dataArray heights frequencySamples insertStart)
  = length heights.
Proof.
  unfold insertColumn, for_le.
  apply (for_lt_inv (fun h => length h = length heights)); [done |].
  intros i t _ Ht. by rewrite length_insertStep.
Qed.

(** The insertion loop touches the cells [insertStart .. insertStart +
    frequencySamples] and no other. *)
Lemma get_insertColumn_outside dataArray heights frequencySamples insertStart k :
  k < insertStart \/ insertStart + frequencySamples < k ->
  get (insertColumn dataArray heights frequencySamples insertStart) k
  = get heights k.
Proof.
  intros Hk. unfold insertColumn, for_le.
  apply (for_lt_inv (fun h => get h k = get heights k)); [done |].
  intros i t Hi Ht. rewrite get_insertStep_ne by lia. done.
Qed.

(** After the first [frequencySamples] iterations the cells of the column
    hold the data array, cell by cell. *)
Lemma get_insertColumn_data dataArray heights frequencySamples insertStart j :
  0 <= j < frequencySamples ->
  0 <= insertStart ->
  insertStart + frequencySamples < Z.of_nat (length heights) ->
  get (insertColumn dataArray heights frequencySamples insertStart)
      (insertStart + j)
  = Some (or_zero (get dataArray j)).
Proof.
  intros Hj Hs Hlen. unfold insertColumn, for_le.
  set (body := insertStep dataArray frequencySamples insertStart).
  pose (P := fun (n : Z) (h : list byte) =>
    length h = length heights /\
    forall m, 0 <= m < n -> m < frequencySamples ->
      get h (insertStart + m) = Some (or_zero (get dataArray m))).
  assert (P (frequencySamples + 1)
            (for_lt 0 (frequencySamples + 1) body heights)) as [_ HP].
  { apply (for_lt_ind P); [lia | split; [done | intros; lia] |].
    intros i t Hi [Hlt Hdata]. split.
    - unfold body. by rewrite length_insertStep.
    - intros m Hm Hmf. destruct (decide (m = i)) as [-> | Hne].
      + unfold body, insertStep.
        destruct (i <? frequencySamples) eqn:E; [| lia].
        apply get_put_eq. lia.
      + unfold body. rewrite get_insertStep_ne by lia.
        apply Hdata; lia. }
  apply HP; lia.
Qed.

(** The closing vertex of the column repeats the cell before it. *)
Lemma get_insertColumn_closing dataArray heights frequencySamples insertStart :
  0 < frequencySamples ->
  0 <= insertStart ->
  insertStart + frequencySamples < Z.of_nat (length heights) ->
  get (insertColumn dataArray heights frequencySamples insertStart)
      (insertStart + frequencySamples)
  = get (insertColumn dataArray heights frequencySamples insertStart)
      (insertStart + frequencySamples - 1).
Proof.
  intros HF Hs Hlen. unfold insertColumn, for_le.
  rewrite for_lt_snoc by lia.
  set (h1 := for_lt 0 frequencySamples _ heights).
  assert (length h1 = length heights) as Hl1.
  { subst h1. apply (for_lt_inv (fun h => length h = length heights));
      [done |]. intros i t _ Ht. by rewrite length_insertStep. }
  rewrite (get_insertStep_ne _ _ _ _ _ (insertStart + frequencySamples - 1))
    by lia.
  unfold insertStep.
  destruct (frequencySamples <? frequencySamples) eqn:E; [lia |].
  rewrite get_put_eq by lia.
  destruct (get h1 (insertStart + frequencySamples - 1)) as [b |] eqn:Hg.
  - by rewrite or_zero_id.
  - unfold get in Hg.
    destruct (insertStart + frequencySamples - 1 <? 0) eqn:E'; [lia |].
    apply lookup_ge_None in Hg. lia.
Qed.

Lemma create_Some n : 0 <= n -> create n = Some (replicate (Z.to_nat n) x00).
Proof. intros Hn. unfold create. destruct (n <? 0) eqn:E; [lia | done]. Qed.

Lemma length_getByteFrequencyData analyser (array : Uint8Array) :
  length (getByteFrequencyData analyser array) = length array.
Proof.
  unfold getByteFrequencyData.
  rewrite length_app, length_take, length_drop. lia.
Qed.

(** What one read of the analyser leaves in a fresh array: the bins, and
    zero where the analyser has no bin. *)
Lemma get_getByteFrequencyData_fresh analyser n j :
  0 <= j < Z.of_nat n ->
  get (getByteFrequencyData analyser (replicate n x00)) j
  = Some (or_zero (get analyser j)).
Proof.
  intros Hj. unfold getByteFrequencyData, get.
  destruct (j <? 0) eqn:E; [lia |].
  rewrite length_replicate.
  destruct (decide (Z.to_nat j < length analyser)%nat) as [Hlt | Hge].
  - rewrite lookup_app_l by (rewrite length_take; lia).
    rewrite lookup_take_lt by lia.
    destruct (lookup_lt_is_Some_2 analyser (Z.to_nat j) Hlt) as [b Hb].
    rewrite Hb. by rewrite or_zero_id.
  - rewrite lookup_app_r by (rewrite length_take; lia).
    rewrite length_take, lookup_drop, lookup_replicate_2 by lia.
    rewrite (lookup_ge_None_2 analyser) by lia. done.
Qed.

Lemma length_sampled analyser dataArray frequencySamples :
  frequencySamples <= Z.of_nat (length dataArray) ->
  length (sampled analyser dataArray frequencySamples) = length dataArray.
Proof.
  intros Hle. unfold sampled.
  rewrite length_app, length_drop, length_getByteFrequencyData,
    length_replicate. lia.
Qed.

Lemma get_sampled analyser dataArray frequencySamples j :
  0 <= j < frequencySamples ->
  get (sampled analyser dataArray frequencySamples) j
  = Some (or_zero (get analyser j)).
Proof.
  intros Hj.
  rewrite <- (get_getByteFrequencyData_fresh analyser
                (Z.to_nat frequencySamples) j) by lia.
  unfold sampled, get. destruct (j <? 0) eqn:E; [lia |].
  apply lookup_app_l.
  rewrite length_getByteFrequencyData, length_replicate. lia.
Qed.

(** A tick never throws when the data array has room for the sample, and
    then it is the shift followed by the insertion loop. *)
Lemma updateSpectrogramData_unfold analyser dataArray heights
    frequencySamples nVertices :
  0 <= frequencySamples ->
  frequencySamples <= Z.of_nat (length dataArray) ->
  updateSpectrogramData analyser dataArray heights frequencySamples nVertices
  = Some (sampled analyser dataArray frequencySamples,
          insertColumn (sampled analyser dataArray frequencySamples)
            (copyWithin heights 0 (frequencySamples + 1) (nVertices + 1))
            frequencySamples
            (nVertices - (frequencySamples + 1) - (frequencySamples + 1))).
Proof.
  intros HF Hd. unfold updateSpectrogramData.
  rewrite create_Some by lia. simpl.
  unfold set.
  rewrite length_getByteFrequencyData, length_replicate.
  destruct (length dataArray <? Z.to_nat frequencySamples)%nat eqn:E.
  - apply Nat.ltb_lt in E. lia.
  - simpl. unfold sampled.
    by rewrite length_getByteFrequencyData, length_replicate.
Qed.

(** The shift: destination window [0 .. count-1] reads from one column to the
    right; every other cell is untouched. *)
Lemma get_shift heights frequencySamples nVertices k :
  0 <= frequencySamples ->
  Z.of_nat (length heights) = nVertices ->
  get (copyWithin heights 0 (frequencySamples + 1) (nVertices + 1)) k
  = if decide (0 <= k < nVertices - (frequencySamples + 1))
    then get heights (k + (frequencySamples + 1))
    else get heights k.
Proof.
  intros HF Hlen. unfold get.
  destruct (k <? 0) eqn:Ek.
  { case_decide; [lia | done]. }
  rewrite lookup_copyWithin. rewrite Hlen.
  unfold relative.
  destruct (0 <? 0) eqn:E0; [lia |].
  destruct (frequencySamples + 1 <? 0) eqn:E1; [lia |].
  destruct (nVertices + 1 <? 0) eqn:E2; [lia |].
  destruct (decide (0 <= k < nVertices - (frequencySamples + 1))) as [Hin | Hout].
  - destruct (k + (frequencySamples + 1) <? 0) eqn:E3; [lia |].
    case_decide as Hc; [f_equal; lia | lia].
  - case_decide as Hc; [lia | done].
Qed.

(** Where the sample of a tick lands: the column that starts at
    [nVertices - 2 * (frequencySamples + 1)]. *)
Lemma tick_sample_column analyser dataArray heights frequencySamples nVertices :
  0 < frequencySamples ->
  Z.of_nat (length heights) = nVertices ->
  2 * (frequencySamples + 1) <= nVertices ->
  frequencySamples <= Z.of_nat (length dataArray) ->
  exists dataArray' heights',
    updateSpectrogramData analyser dataArray heights frequencySamples nVertices
    = Some (dataArray', heights') /\
    let insertStart := nVertices - 2 * (frequencySamples + 1) in
    (forall j, 0 <= j < frequencySamples ->
       get heights' (insertStart + j) = Some (or_zero (get analyser j))) /\
    get heights' (insertStart + frequencySamples)
    = get heights' (insertStart + frequencySamples - 1).
Proof.
  intros HF Hlen Hn Hd.
  eexists _, _. split; [apply updateSpectrogramData_unfold; lia |].
  cbv zeta.
  replace (nVertices - (frequencySamples + 1) - (frequencySamples + 1))
    with (nVertices - 2 * (frequencySamples + 1)) by lia.
  split.
  - intros j Hj.
    rewrite get_insertColumn_data
      by (rewrite ?length_copyWithin; lia).
    rewrite get_sampled by lia. by rewrite or_zero_id.
  - apply get_insertColumn_closing; rewrite ?length_copyWithin; lia.
Qed.

(** Any run of ticks returns, keeps the length of the buffer and leaves
    every cell from [nVertices - (frequencySamples + 1)] on as it was. *)
Lemma runTicks_last_column frames dataArray heights frequencySamples nVertices :
  0 <= frequencySamples ->
  Z.of_nat (length heights) = nVertices ->
  frequencySamples <= Z.of_nat (length dataArray) ->
  exists dataArray' heights',
    runTicks frames dataArray heights frequencySamples nVertices
    = Some (dataArray', heights') /\
    length heights' = length heights /\
    forall k, nVertices - (frequencySamples + 1) <= k ->
      get heights' k = get heights k.
Proof.
  intros HF. revert dataArray heights.
  induction frames as [| frame rest IH]; intros dataArray heights Hlen Hd.
  - simpl. eauto.
  - simpl. rewrite updateSpectrogramData_unfold by lia. simpl.
    set (d1 := sampled frame dataArray frequencySamples).
    set (h1 := insertColumn d1 _ _ _).
    assert (length h1 = length heights) as Hl1
      by (subst h1; by rewrite length_insertColumn, length_copyWithin).
    destruct (IH d1 h1) as (d' & h' & Hrun & Hl & Hk).
    { lia. }
    { subst d1. rewrite length_sampled; lia. }
    exists d', h'. split; [done |]. split; [lia |].
    intros k Hge. rewrite Hk by lia. subst h1.
    rewrite get_insertColumn_outside by lia.
    rewrite get_shift by lia. case_decide; [lia | done].
Qed.

End AnimationFacts.

(** ** The geometry builder *)

Section GeometryFacts.

Import Loop Helpers Geometry Rows.

Context `{HostMath}.

Lemma put_replicate_zero n i : put (replicate n x00) i x00 = replicate n x00.
Proof. unfold put. destruct (i <? 0); [done | apply insert_replicate]. Qed.

(** [generateVertices] returns as soon as the vertex count is not negative;
    the heights are all zero and the vertices are the rows laid end to
    end. *)
Lemma generateVertices_unfold (params : Params) :
  let nVertices := (frequencySamples params + 1) * (timeSamples params + 1) in
  0 <= nVertices ->
  generateVertices params
  = Some {| vd_vertices :=
              for_le 0 (timeSamples params) (fun i a => a ++ rowOf params i) [];
            vd_heights := replicate (Z.to_nat nVertices) x00;
            vd_nVertices := nVertices |}.
Proof.
  intros nVertices Hn. unfold generateVertices. fold nVertices.
  rewrite create_Some by done. simpl.
  set (outer := fun (i : Z) (st : list Q * list byte) =>
    for_le 0 (frequencySamples params)
      (vertexStep (frequencySamples params) (ysize params)
         (inject_Z i * (xsize params / inject_Z (timeSamples params))
          - xsize params / 2)%Q i) st).
  set (st := for_le 0 (timeSamples params) outer _).
  assert (st.2 = replicate (Z.to_nat nVertices) x00) as H2.
  { subst st. unfold for_le.
    apply (for_lt_inv (fun t => t.2 = replicate (Z.to_nat nVertices) x00));
      [done |].
    intros i t _ Ht. unfold outer, for_le.
    apply (for_lt_inv (fun t => t.2 = replicate (Z.to_nat nVertices) x00));
      [done |].
    intros j u _ Hu. unfold vertexStep. simpl.
    rewrite Hu. apply put_replicate_zero. }
  assert (st.1
    = for_le 0 (timeSamples params) (fun i a => a ++ rowOf params i) [])
    as H1.
  { subst st. unfold for_le.
    rewrite (for_lt_fst _ _ outer (fun i a => a ++ rowOf params i)); [done |].
    intros i t _. unfold outer, for_le.
    rewrite (for_lt_fst _ _ _ (fun j a => a ++ tripleOf params i j))
      by done.
    rewrite for_lt_app_acc. done. }
  by rewrite H1, H2.
Qed.

Lemma length_rowOf params i :
  0 <= frequencySamples params ->
  length (rowOf params i)
  = (3 * Z.to_nat (frequencySamples params + 1))%nat.
Proof.
  intros HF. unfold rowOf, for_le.
  destruct (for_lt_blocks (tripleOf params i) 3 0
              (frequencySamples params + 1)) as [Hl _]; [lia | done |].
  rewrite Hl. f_equal. f_equal. lia.
Qed.

(** The vertex of the grid point [(i, j)] sits at item
    [i * (frequencySamples + 1) + j]. *)
Lemma itemAt_vertices params i j :
  0 <= i <= timeSamples params ->
  0 <= j <= frequencySamples params ->
  itemAt
    (for_le 0 (timeSamples params) (fun i a => a ++ rowOf params i) [])
    (i * (frequencySamples params + 1) + j)
  = Some (xOf params i,
          calculateLogarithmicY j (frequencySamples params) (ysize params),
          0%Q).
Proof.
  intros Hi Hj. unfold itemAt.
  set (F := frequencySamples params) in *.
  destruct (i * (F + 1) + j <? 0) eqn:E; [nia |].
  assert (forall c : nat, (c < 3)%nat ->
    for_le 0 (timeSamples params) (fun i a => a ++ rowOf params i) []
      !! (Z.to_nat (3 * (i * (F + 1) + j)) + c)%nat
    = tripleOf params i j !! c) as Hget.
  { intros c Hc. unfold for_le.
    destruct (for_lt_blocks (rowOf params) (3 * Z.to_nat (F + 1)) 0
                (timeSamples params + 1)) as [_ Hrow]; [lia | |].
    { intros. apply length_rowOf. subst F. lia. }
    replace (Z.to_nat (3 * (i * (F + 1) + j)) + c)%nat
      with (3 * Z.to_nat (F + 1) * Z.to_nat (i - 0)
            + (3 * Z.to_nat (j - 0) + c))%nat.
    2:{ apply Nat2Z.inj.
        repeat (rewrite Nat2Z.inj_add || rewrite Nat2Z.inj_mul).
        rewrite !Z2Nat.id by nia. simpl. nia. }
    rewrite Hrow by lia.
    unfold rowOf, for_le.
    destruct (for_lt_blocks (tripleOf params i) 3 0 (F + 1)) as [_ Htri];
      [lia | done |].
    apply Htri; lia. }
  rewrite <- (Nat.add_0_r (Z.to_nat (3 * (i * (F + 1) + j)))) at 1.
  rewrite !Hget by lia. done.
Qed.

Lemma generateIndices_unfold timeSamples frequencySamples :
  generateIndices timeSamples frequencySamples
  = for_lt 0 timeSamples (fun i a => a ++ quadRowOf frequencySamples i) [].
Proof.
  unfold generateIndices. apply for_lt_ext. intros i t _.
  unfold quadRowOf. rewrite <- for_lt_app_acc.
  apply for_lt_ext. intros j u _.
  unfold quadStep, quadOf. by rewrite <- app_assoc.
Qed.

Lemma length_quadRowOf frequencySamples i :
  0 <= frequencySamples ->
  length (quadRowOf frequencySamples i) = (6 * Z.to_nat frequencySamples)%nat.
Proof.
  intros HF. unfold quadRowOf.
  destruct (for_lt_blocks (quadOf frequencySamples i) 6 0 frequencySamples)
    as [Hl _]; [lia | done |].
  rewrite Hl. f_equal. f_equal. lia.
Qed.

Lemma length_generateIndices timeSamples frequencySamples :
  0 <= timeSamples -> 0 <= frequencySamples ->
  Z.of_nat (length (generateIndices timeSamples frequencySamples))
  = 3 * (2 * timeSamples * frequencySamples).
Proof.
  intros HT HF. rewrite generateIndices_unfold.
  destruct (for_lt_blocks (quadRowOf frequencySamples)
              (6 * Z.to_nat frequencySamples) 0 timeSamples) as [Hl _];
    [lia | intros; by apply length_quadRowOf |].
  rewrite Hl. rewrite Z.sub_0_r. nia.
Qed.

Lemma lookup_generateIndices timeSamples frequencySamples i j (c : nat) :
  0 <= i < timeSamples -> 0 <= j < frequencySamples -> (c < 6)%nat ->
  generateIndices timeSamples frequencySamples
    !! (Z.to_nat (6 * (i * frequencySamples + j)) + c)%nat
  = quadOf frequencySamples i j !! c.
Proof.
  intros Hi Hj Hc. rewrite generateIndices_unfold.
  destruct (for_lt_blocks (quadRowOf frequencySamples)
              (6 * Z.to_nat frequencySamples) 0 timeSamples) as [_ Hrow];
    [lia | intros; apply length_quadRowOf; lia |].
  replace (Z.to_nat (6 * (i * frequencySamples + j)) + c)%nat
    with (6 * Z.to_nat frequencySamples * Z.to_nat (i - 0)
          + (6 * Z.to_nat (j - 0) + c))%nat.
  2:{ apply Nat2Z.inj.
      repeat (rewrite Nat2Z.inj_add || rewrite Nat2Z.inj_mul).
      rewrite !Z2Nat.id by nia. simpl. nia. }
  rewrite Hrow by lia.
  unfold quadRowOf.
  destruct (for_lt_blocks (quadOf frequencySamples i) 6 0 frequencySamples)
    as [_ Hquad]; [lia | done |].
  apply Hquad; lia.
Qed.

Lemma generateIndices_empty timeSamples frequencySamples :
  timeSamples <= 0 \/ frequencySamples <= 0 ->
  generateIndices timeSamples frequencySamples = [].
Proof.
  intros Hle. rewrite generateIndices_unfold.
  apply (for_lt_inv (fun t : list Z => t = [])); [done |].
  intros i t Hi ->. unfold quadRowOf.
  rewrite for_lt_nil by lia. done.
Qed.

Lemma itemAt_Some_lt {A : Type} (array : list A) k item :
  itemAt array k = Some item ->
  0 <= k /\ 3 * k + 2 < Z.of_nat (length array).
Proof.
  unfold itemAt. destruct (k <? 0) eqn:E; [done |].
  destruct (array !! Z.to_nat (3 * k)); [| done].
  destruct (array !! (Z.to_nat (3 * k) + 1)%nat); [| done].
  destruct (array !! (Z.to_nat (3 * k) + 2)%nat) eqn:E2; [| done].
  intros _. apply lookup_lt_Some in E2. lia.
Qed.

(** The two triangles of the quad [(i, j)] are items [2q] and [2q + 1] of
    the index buffer, [q = i * frequencySamples + j]. *)
Lemma itemAt_generateIndices timeSamples frequencySamples i j :
  0 <= i < timeSamples -> 0 <= j < frequencySamples ->
  let a := i * (frequencySamples + 1) + (j + 1) in
  let b := i * (frequencySamples + 1) + j in
  let c := (i + 1) * (frequencySamples + 1) + j in
  let d := (i + 1) * (frequencySamples + 1) + (j + 1) in
  let indices := generateIndices timeSamples frequencySamples in
  itemAt indices (2 * (i * frequencySamples + j)) = Some (a, b, d) /\
  itemAt indices (2 * (i * frequencySamples + j) + 1) = Some (b, c, d).
Proof.
  intros Hi Hj a b c d indices.
  pose proof (fun n Hn =>
    lookup_generateIndices timeSamples frequencySamples i j n Hi Hj Hn) as Hq.
  fold indices in Hq.
  set (q := i * frequencySamples + j) in *.
  assert (0 <= q) by (subst q; nia).
  unfold itemAt.
  destruct (2 * q <? 0) eqn:E0; [lia |].
  destruct (2 * q + 1 <? 0) eqn:E1; [lia |].
  replace (Z.to_nat (3 * (2 * q))) with (Z.to_nat (6 * q) + 0)%nat by lia.
  replace (Z.to_nat (6 * q) + 0 + 1)%nat with (Z.to_nat (6 * q) + 1)%nat
    by lia.
  replace (Z.to_nat (6 * q) + 0 + 2)%nat with (Z.to_nat (6 * q) + 2)%nat
    by lia.
  replace (Z.to_nat (3 * (2 * q + 1))) with (Z.to_nat (6 * q) + 3)%nat by lia.
  replace (Z.to_nat (6 * q) + 3 + 1)%nat with (Z.to_nat (6 * q) + 4)%nat
    by lia.
  replace (Z.to_nat (6 * q) + 3 + 2)%nat with (Z.to_nat (6 * q) + 5)%nat
    by lia.
  rewrite !Hq by lia. done.
Qed.

End GeometryFacts.

(** ** The claims about the geometry builder *)

Section GeometryClaims.

Import Helpers Geometry.

Context `{HostMath}.

(** C4.  For valid parameters the geometry build returns, its vertex count is
    [(frequencySamples + 1) * (timeSamples + 1)], which is what
    [calculateVertexCount] gives, the heights buffer has that many cells and
    each of them is zero; the displacement attribute of the geometry is that
    buffer. *)
Theorem geometry_build_zeroed (params : Params) :
  0 < timeSamples params -> 0 < frequencySamples params ->
  (0 < xsize params)%Q -> (0 < ysize params)%Q ->
  exists g,
    createGeometry params = Some g /\
    nVertices g = (frequencySamples params + 1) * (timeSamples params + 1) /\
    nVertices g
    = calculateVertexCount (frequencySamples params) (timeSamples params) /\
    Z.of_nat (length (heights g)) = nVertices g /\
    (forall k, 0 <= k < nVertices g -> get (heights g) k = Some x00) /\
    displacement (geometry g) = heights g.
Proof.
  intros HT HF _ _. unfold createGeometry.
  rewrite generateVertices_unfold by nia. simpl.
  eexists. split; [done |]. simpl.
  repeat split.
  - rewrite length_replicate. nia.
  - intros k Hk. apply get_replicate_zero. lia.
Qed.

(** C6.  The vertex of time index [i] and frequency index [j] is item
    [i * (frequencySamples + 1) + j] of the vertex array; its x is
    [i * (xsize / timeSamples) - xsize / 2], its y is
    [- E^p + ysize / 2 + 1] with
    [p = ((frequencySamples - j) / frequencySamples) * log ysize], and its
    z is 0. *)
Theorem vertex_coordinates (params : Params) (i j : Z) :
  0 < timeSamples params -> 0 < frequencySamples params ->
  0 <= i <= timeSamples params ->
  0 <= j <= frequencySamples params ->
  exists vd,
    generateVertices params = Some vd /\
    let p :=
      (inject_Z (frequencySamples params - j)
         / inject_Z (frequencySamples params)
       * Math_log (ysize params))%Q in
    itemAt (vd_vertices vd) (i * (frequencySamples params + 1) + j)
    = Some ((inject_Z i * (xsize params / inject_Z (timeSamples params))
             - xsize params / 2)%Q,
            (- Math_pow Math_E p + ysize params / 2 + 1)%Q,
            0%Q).
Proof.
  intros HT HF Hi Hj.
  rewrite generateVertices_unfold by nia.
  eexists. split; [done |]. simpl.
  rewrite itemAt_vertices by lia. done.
Qed.

End GeometryClaims.

Section IndexClaims.

Import Geometry.

(** C7.  The index buffer holds two triangles per quad and nothing else: its
    length is [6 * timeSamples * frequencySamples]; the triangles of the quad
    [(i, j)] are [(a, b, d)] then [(b, c, d)], at items [2q] and [2q + 1]
    with [q = i * frequencySamples + j]; and every triangle of the buffer is
    one of these. *)
Theorem two_triangles_per_quad (timeSamples frequencySamples : Z) :
  let F := frequencySamples in
  let indices := generateIndices timeSamples frequencySamples in
  let a i j := i * (F + 1) + (j + 1) in
  let b i j := i * (F + 1) + j in
  let c i j := (i + 1) * (F + 1) + j in
  let d i j := (i + 1) * (F + 1) + (j + 1) in
  Z.of_nat (length indices) = 6 * (Z.max 0 timeSamples * Z.max 0 F) /\
  (forall i j, 0 <= i < timeSamples -> 0 <= j < F ->
     itemAt indices (2 * (i * F + j)) = Some (a i j, b i j, d i j) /\
     itemAt indices (2 * (i * F + j) + 1) = Some (b i j, c i j, d i j)) /\
  (forall t triangle, itemAt indices t = Some triangle ->
     exists i j, 0 <= i < timeSamples /\ 0 <= j < F /\
       (t = 2 * (i * F + j) /\ triangle = (a i j, b i j, d i j) \/
        t = 2 * (i * F + j) + 1 /\ triangle = (b i j, c i j, d i j))).
Proof.
  intros F indices a b c d. subst F indices.
  set (F := frequencySamples) in *.
  assert (Z.of_nat (length (generateIndices timeSamples F))
          = 6 * (Z.max 0 timeSamples * Z.max 0 F)) as Hlen.
  { destruct (decide (0 < timeSamples /\ 0 < F)) as [[HT HF] | Hno].
    - rewrite length_generateIndices by lia. lia.
    - rewrite generateIndices_empty by lia. simpl. nia. }
  split; [done |]. split.
  - intros i j Hi Hj.
    apply (itemAt_generateIndices timeSamples F i j Hi Hj).
  - intros t triangle Ht.
    pose proof (itemAt_Some_lt _ _ _ Ht) as [Ht0 Htl].
    rewrite Hlen in Htl.
    assert (0 < timeSamples /\ 0 < F) as [HT HF] by nia.
    assert (0 <= t / 2 < timeSamples * F) as Hq.
    { pose proof (Z.div_mod t 2 ltac:(lia)).
      pose proof (Z.mod_pos_bound t 2 ltac:(lia)). nia. }
    pose proof (Z.div_mod t 2 ltac:(lia)) as Htq.
    pose proof (Z.mod_pos_bound t 2 ltac:(lia)) as Hm.
    pose proof (Z.div_mod (t / 2) F ltac:(lia)) as Hqij.
    pose proof (Z.mod_pos_bound (t / 2) F HF) as Hjb.
    assert (0 <= t / 2 / F < timeSamples) as Hib by nia.
    exists (t / 2 / F), (t / 2 mod F). split; [done |]. split; [done |].
    destruct (itemAt_generateIndices timeSamples F _ _ Hib Hjb) as [H1 H2].
    replace (t / 2 / F * F + t / 2 mod F) with (t / 2) in * by lia.
    destruct (decide (t mod 2 = 0)) as [H0 | H1'].
    + left. assert (2 * (t / 2) = t) as Heq by lia. split; [lia |].
      rewrite Heq in H1. rewrite H1 in Ht. by inversion Ht.
    + right. assert (2 * (t / 2) + 1 = t) as Heq by lia. split; [lia |].
      rewrite Heq in H2. rewrite H2 in Ht. by inversion Ht.
Qed.

End IndexClaims.

(** ** The claims about the scroll buffer updater *)

Section AnimationClaims.

Import Helpers Geometry Animation.

(** C1.  One tick at the smallest sizes the controls offer, 64 frequency
    samples and 200 time samples (13065 vertices, columns of 65), on the
    fresh zeroed buffer, with the 128 bins of the analyser all at 255.  The
    sample lands in the cells 12935 .. 12999, the column before the last
    one; the cells 13000 .. 13064 of the rightmost column stay zero and do
    not hold the sampled values. *)
Theorem tick_misses_rightmost_column :
  let analyser := replicate 128 xff in
  let frequencySamples := 64 in
  let nVertices := calculateVertexCount frequencySamples 200 in
  let stride := frequencySamples + 1 in
  exists dataArray' heights',
    updateSpectrogramData analyser (replicate 64 x00)
      (replicate (Z.to_nat nVertices) x00) frequencySamples nVertices
    = Some (dataArray', heights') /\
    nVertices = 13065 /\
    get dataArray' 0 = Some xff /\
    get dataArray' 63 = Some xff /\
    get heights' (nVertices - stride + 0) = Some x00 /\
    get heights' (nVertices - stride + 63) = Some x00 /\
    get heights' (nVertices - stride + 64) = Some x00 /\
    get heights' (nVertices - 2 * stride + 0) = Some xff /\
    get heights' (nVertices - 2 * stride + 63) = Some xff /\
    get heights' (nVertices - 2 * stride + 64) = Some xff.
Proof.
  cbv zeta.
  replace (calculateVertexCount 64 200) with 13065 by reflexivity.
  set (heights := replicate (Z.to_nat 13065) x00).
  set (analyser := replicate 128 xff).
  set (dataArray := replicate 64 x00).
  assert (Z.of_nat (length heights) = 13065) as Hlen
    by (subst heights; rewrite length_replicate; lia).
  assert (64 <= Z.of_nat (length dataArray)) as Hd
    by (subst dataArray; rewrite length_replicate; lia).
  assert (forall j, 0 <= j < 64 ->
            Some (or_zero (get analyser j)) = Some xff) as Hbin.
  { intros j Hj. subst analyser. unfold get.
    destruct (j <? 0) eqn:E; [lia |].
    rewrite lookup_replicate_2 by lia. reflexivity. }
  eexists _, _.
  split; [apply updateSpectrogramData_unfold; [lia | exact Hd] |].
  set (d' := sampled analyser dataArray 64).
  set (shifted := copyWithin heights 0 (64 + 1) (13065 + 1)).
  assert (Z.of_nat (length shifted) = 13065) as Hls
    by (subst shifted; rewrite length_copyWithin; exact Hlen).
  assert (forall j, 0 <= j < 64 -> get d' j = Some xff) as Hsample.
  { intros j Hj. subst d'. rewrite get_sampled by lia. apply Hbin. lia. }
  assert (forall k, 13065 - 65 <= k < 13065 ->
            get (insertColumn d' shifted 64 (13065 - (64 + 1) - (64 + 1))) k
            = Some x00) as Hlast.
  { intros k Hk. rewrite get_insertColumn_outside by lia.
    subst shifted. rewrite get_shift by (exact Hlen || lia).
    case_decide; [lia |].
    subst heights. apply get_replicate_zero. lia. }
  assert (forall j, 0 <= j < 64 ->
            get (insertColumn d' shifted 64 (13065 - (64 + 1) - (64 + 1)))
                (13065 - 2 * (64 + 1) + j)
            = Some xff) as Hdata.
  { intros j Hj.
    replace (13065 - 2 * (64 + 1) + j)
      with (13065 - (64 + 1) - (64 + 1) + j) by lia.
    rewrite get_insertColumn_data by lia.
    rewrite Hsample by lia. reflexivity. }
  split; [reflexivity |].
  split; [apply Hsample; lia |].
  split; [apply Hsample; lia |].
  split; [apply Hlast; lia |].
  split; [apply Hlast; lia |].
  split; [apply Hlast; lia |].
  split; [apply Hdata; lia |].
  split; [apply Hdata; lia |].
  replace (13065 - 2 * (64 + 1) + 64)
    with (13065 - (64 + 1) - (64 + 1) + 64) by lia.
  rewrite get_insertColumn_closing by lia.
  replace (13065 - (64 + 1) - (64 + 1) + 64 - 1)
    with (13065 - 2 * (64 + 1) + 63) by lia.
  apply Hdata. lia.
Qed.

(** C2.  A tick first shifts the buffer left by one column: the shifted
    buffer has the length of the old one and its cell [k] holds what cell
    [k + stride] held before the tick, for every [k] in
    [0 .. nVertices - stride - 1], overlap or not.  The tick returns; its
    result is the insertion loop run on the shifted buffer, of the same
    length again. *)
Theorem shift_left_one_column
    (analyser dataArray heights : Uint8Array) (frequencySamples nVertices : Z) :
  0 <= frequencySamples ->
  Z.of_nat (length heights) = nVertices ->
  frequencySamples <= Z.of_nat (length dataArray) ->
  let stride := frequencySamples + 1 in
  let shifted := copyWithin heights 0 stride (nVertices + 1) in
  length shifted = length heights /\
  (forall k, 0 <= k <= nVertices - stride - 1 ->
     get shifted k = get heights (k + stride)) /\
  exists dataArray' heights',
    updateSpectrogramData analyser dataArray heights frequencySamples nVertices
    = Some (dataArray', heights') /\
    heights'
    = insertColumn dataArray' shifted frequencySamples
        (nVertices - stride - stride) /\
    length heights' = length heights.
Proof.
  intros HF Hlen Hd stride shifted. subst stride shifted.
  split; [apply length_copyWithin |]. split.
  - intros k Hk. rewrite get_shift by done. case_decide; [done | lia].
  - eexists _, _. split; [by apply updateSpectrogramData_unfold |].
    split; [done |].
    by rewrite length_insertColumn, length_copyWithin.
Qed.

(** C3.  No tick writes a cell of the last column: on any buffer of
    [nVertices] cells a run of ticks returns and leaves the cells from
    [nVertices - (frequencySamples + 1)] on as they were; the insertion loop
    of a tick starts at [nVertices - 2 * (frequencySamples + 1)].  So from
    the zeroed buffer of a fresh geometry, after any number of ticks, the
    rightmost column is all zeros. *)
Theorem last_column_stays_zero `{HostMath} (params : Params)
    (frames : list (list byte)) (dataArray : Uint8Array) :
  0 < timeSamples params -> 0 < frequencySamples params ->
  frequencySamples params <= Z.of_nat (length dataArray) ->
  let F := frequencySamples params in
  exists g dataArray' heights',
    createGeometry params = Some g /\
    runTicks frames dataArray (heights g) F (nVertices g)
    = Some (dataArray', heights') /\
    (forall k, nVertices g - (F + 1) <= k <= nVertices g - 1 ->
       get heights' k = Some x00) /\
    (forall analyser d (h : Uint8Array),
       Z.of_nat (length h) = nVertices g ->
       F <= Z.of_nat (length d) ->
       exists d1 h1,
         updateSpectrogramData analyser d h F (nVertices g) = Some (d1, h1) /\
         h1 = insertColumn d1 (copyWithin h 0 (F + 1) (nVertices g + 1)) F
                (nVertices g - 2 * (F + 1)) /\
         forall k, nVertices g - (F + 1) <= k -> get h1 k = get h k).
Proof.
  intros HT HF Hd F. subst F.
  set (F := frequencySamples params) in *.
  unfold createGeometry. rewrite generateVertices_unfold by (fold F; nia).
  fold F. simpl.
  set (nV := (F + 1) * (timeSamples params + 1)).
  destruct (runTicks_last_column frames dataArray
              (replicate (Z.to_nat nV) x00) F nV)
    as (d' & h' & Hrun & Hl & Hk); [lia | | done |].
  { rewrite length_replicate. subst nV. nia. }
  eexists _, d', h'. split; [done |]. simpl. split; [done |]. split.
  - intros k Hkr. rewrite Hk by lia.
    apply get_replicate_zero. subst nV. nia.
  - intros analyser d h Hh Hdl.
    eexists _, _. split; [apply updateSpectrogramData_unfold; lia |].
    split; [f_equal; lia |].
    intros k Hkr.
    rewrite get_insertColumn_outside by lia.
    rewrite get_shift by lia. case_decide; [lia | done].
Qed.

End AnimationClaims.

(** ** The helpers: FFT size and parameter validation *)

Section HelperFacts.

Import Config Helpers.

(** [Math_round_log2 value] is the integer nearest to the binary logarithm
    of [value]: [k - 1/2 <= log2 value < k + 1/2], said on integers as
    [4^k <= 2 * value^2 < 4^(k+1)]. *)
Lemma Math_round_log2_nearest value :
  0 < value ->
  let k := Math_round_log2 value in
  0 <= k /\ 4 ^ k <= 2 * (value * value) < 4 ^ (k + 1).
Proof.
  intros Hv k. subst k. unfold Math_round_log2.
  assert (0 < value * value) as Hsq by nia.
  pose proof (Z.log2_spec _ Hsq) as [Hlo Hhi].
  pose proof (Z.log2_nonneg (value * value)) as Hm.
  set (m := Z.log2 (value * value)) in *.
  set (k := (m + 1) / 2).
  pose proof (Z.div_mod (m + 1) 2 ltac:(lia)) as Hdm. fold k in Hdm.
  pose proof (Z.mod_pos_bound (m + 1) 2 ltac:(lia)) as Hr.
  assert (0 <= k) as Hk by lia.
  split; [done |].
  replace 4 with (2 ^ 2) by done.
  rewrite <- !Z.pow_mul_r by lia.
  destruct (decide ((m + 1) mod 2 = 0)) as [H0 | H1].
  - assert (m = 2 * k - 1) as Hmk by lia.
    replace (Z.succ m) with (2 * k) in Hhi by lia.
    replace (2 * k) with (Z.succ m) at 1 by lia.
    rewrite Z.pow_succ_r by lia.
    replace (2 * (k + 1)) with (Z.succ (Z.succ (2 * k))) by lia.
    rewrite !Z.pow_succ_r by lia. lia.
  - assert (m = 2 * k) as Hmk by lia.
    rewrite <- Hmk.
    replace (2 * (k + 1)) with (Z.succ (Z.succ m)) by lia.
    rewrite Z.pow_succ_r by lia. lia.
Qed.

(** The exponent is clamped, which clamps the power. *)
Lemma pow2_clamp k :
  0 <= k -> 2 ^ Z.max 8 (Z.min 14 k) = Z.max (2 ^ 8) (Z.min (2 ^ 14) (2 ^ k)).
Proof.
  intros Hk.
  destruct (Z.le_gt_cases k 8) as [H8 | H8].
  - pose proof (Z.pow_le_mono_r 2 k 8 ltac:(lia) H8).
    pose proof (Z.pow_le_mono_r 2 8 14 ltac:(lia) ltac:(lia)).
    rewrite Z.max_l by lia. lia.
  - destruct (Z.le_gt_cases k 14) as [H14 | H14].
    + pose proof (Z.pow_le_mono_r 2 8 k ltac:(lia) ltac:(lia)).
      pose proof (Z.pow_le_mono_r 2 k 14 ltac:(lia) H14).
      rewrite Z.max_r, Z.min_r by lia. lia.
    + pose proof (Z.pow_le_mono_r 2 14 k ltac:(lia) ltac:(lia)).
      pose proof (Z.pow_le_mono_r 2 8 14 ltac:(lia) ltac:(lia)).
      rewrite Z.max_r, Z.min_l by lia. lia.
Qed.

Lemma getNearestPowerOf2_pos value :
  0 < value ->
  getNearestPowerOf2 value
  = Z.max (2 ^ 8) (Z.min (2 ^ 14) (2 ^ Math_round_log2 value)).
Proof.
  intros Hv. unfold getNearestPowerOf2.
  destruct (value <=? 0) eqn:E; [lia |].
  rewrite <- pow2_clamp by (apply Math_round_log2_nearest; lia).
  done.
Qed.

(** Validation passes exactly on four positive sizes. *)
Lemma validateParameters_valid params :
  valid (validateParameters params) = true <->
  (0 < xsize params)%Q /\ (0 < ysize params)%Q /\
  0 < frequencySamples params /\ 0 < timeSamples params.
Proof.
  unfold validateParameters.
  destruct (Qle_bool (xsize params) 0) eqn:Ex;
    destruct (Qle_bool (ysize params) 0) eqn:Ey;
    destruct (frequencySamples params <=? 0) eqn:Ef;
    destruct (timeSamples params <=? 0) eqn:Et; simpl;
    try apply Qle_bool_iff in Ex; try apply Qle_bool_iff in Ey;
    try apply Z.leb_le in Ef; try apply Z.leb_le in Et;
    try apply Z.leb_gt in Ef; try apply Z.leb_gt in Et;
    (split; [intros; try discriminate | intros (Hx & Hy & Hf & Ht)];
     try lia; try (exfalso; lra)).
  repeat split; try lia.
  - apply Qnot_le_lt. intros Hle. apply Qle_bool_iff in Hle. congruence.
  - apply Qnot_le_lt. intros Hle. apply Qle_bool_iff in Hle. congruence.
Qed.


End HelperFacts.

Section ComponentFacts.

Import Config Helpers Geometry Three LiveSpectrogram.

Context `{HostMath}.

(** On valid parameters, with a container, [initializeThree] does build: the
    refs then hold a zeroed heights buffer of [nVertices] cells and a zeroed
    data array of [frequencySamples] cells, which is what a tick needs. *)
Lemma initializeThree_valid props refs container :
  containerRef refs = Some container ->
  valid (validateParameters (params props)) = true ->
  let F := frequencySamples (params props) in
  let nV := (F + 1) * (timeSamples (params props) + 1) in
  exists refs',
    initializeThree props refs = Normal refs' /\
    heightsRef refs' = Some (replicate (Z.to_nat nV) x00) /\
    nVerticesRef refs' = nV /\
    dataRef refs' = Some (replicate (Z.to_nat F) x00).
Proof.
  intros Hc Hvalid F nV. subst F nV.
  pose proof Hvalid as Hpos.
  apply validateParameters_valid in Hpos as (_ & _ & HF & HT).
  unfold initializeThree. rewrite Hc, Hvalid. simpl.
  unfold createThreeScene, createGeometry.
  rewrite generateVertices_unfold by nia. simpl.
  rewrite create_Some by lia. simpl.
  eexists. split; [reflexivity |]. simpl. done.
Qed.

End ComponentFacts.

Section HelperClaims.

Import Config Helpers LiveSpectrogram.

(** C5.  For a positive [frequencySamples] the FFT size is [2^k] clamped to
    [2^8 .. 2^14], [k] being the integer nearest to [log2 (4 *
    frequencySamples)]; for a non-positive one it is the lower limit.  256
    samples give 1024, 64 give 256 and 512 give 2048. *)
Theorem fft_size_nearest_power_clamped :
  (forall frequencySamples, 0 < frequencySamples ->
     exists k,
       0 <= k /\
       4 ^ k <= 2 * ((4 * frequencySamples) * (4 * frequencySamples))
             < 4 ^ (k + 1) /\
       calculateFFTSize frequencySamples
       = Z.max (2 ^ 8) (Z.min (2 ^ 14) (2 ^ k))) /\
  (forall frequencySamples, frequencySamples <= 0 ->
     calculateFFTSize frequencySamples = 2 ^ 8) /\
  calculateFFTSize 256 = 1024 /\
  calculateFFTSize 64 = 256 /\
  calculateFFTSize 512 = 2048.
Proof.
  split; [| split; [| by vm_compute]].
  - intros F HF. exists (Math_round_log2 (4 * F)).
    destruct (Math_round_log2_nearest (4 * F) ltac:(lia)) as [Hk Hn].
    split; [done |]. split; [done |].
    unfold calculateFFTSize. apply getNearestPowerOf2_pos.
    unfold ANALYSER_CONFIG.FFT_MULTIPLIER. lia.
  - intros F HF. unfold calculateFFTSize, getNearestPowerOf2.
    unfold ANALYSER_CONFIG.FFT_MULTIPLIER.
    destruct (4 * F <=? 0) eqn:E; [done | lia].
Qed.

End HelperClaims.

(** ** The colour mapper *)

Section ShaderClaims.

Import Config Helpers Shaders.

Lemma lt_true x y : (x < y)%Q -> lt x y = true.
Proof.
  intros Hlt. unfold lt.
  destruct (Qle_bool y x) eqn:E; [| done].
  apply Qle_bool_iff in E. lra.
Qed.

(** C9.  Under each of the eleven schemes, a fragment whose intensity is
    below 0.01 gets the dark tint of the scheme, whatever the intensity, and
    that tint is not the colour the gradient of the scheme has there.  The
    mapping is a function of the scheme and the displacement alone. *)
Theorem near_zero_intensity_dark_tint
    (scheme : ColorScheme) (vDisplacement : Q) :
  (vDisplacement / 255.0 < 0.01)%Q ->
  main (getColorSchemeValue scheme) vDisplacement
  = Vec4 (darkTint scheme) 1.0%Q /\
  ~ vec3_eq (darkTint scheme)
      (getColor (getColorSchemeValue scheme) (vDisplacement / 255.0)%Q).
Proof.
  intros Hlow.
  set (intensity := (vDisplacement / 255.0)%Q) in *.
  split.
  - unfold main. fold intensity.
    rewrite (lt_true intensity 0.01 Hlow).
    by destruct scheme.
  - assert (lt intensity 0.5 = true) as H05 by (apply lt_true; lra).
    assert (lt (intensity * 5.0) 1.0 = true) as Hhue
      by (apply lt_true; lra).
    destruct scheme; unfold getColorSchemeValue, COLOR_SCHEME_VALUES,
      getColor, darkTint, vec3_eq; simpl;
      rewrite ?H05, ?Hhue; simpl; intros (Hr & Hg & Hb); lra.
Qed.

End ShaderClaims.

(** ** Teardown *)

Section TeardownFacts.

Import WebAudio Audio.

Lemma cleanupAudio_returns source audioContext :
  exists source' audioContext',
    cleanupAudio source audioContext = Normal (source', audioContext') /\
    (forall node, source' = Some node -> connected node = false) /\
    context_released audioContext' /\
    (source = None <-> source' = None) /\
    (audioContext = None <-> audioContext' = None).
Proof.
  unfold cleanupAudio, context_released.
  destruct source as [[c h] |]; [destruct c, h |];
    (destruct audioContext as [[st q] |]; [destruct st, q |]);
    simpl; eexists _, _; (split; [reflexivity |]);
    (repeat split); intros; simplify_eq; simpl; auto.
Qed.




End TeardownFacts.

Section TeardownClaims.

Import WebAudio Audio.


End TeardownClaims.

(** ** The theorems at work on small inputs *)

Section Witnesses.

Import Config Helpers Geometry Animation Shaders WebAudio Audio Three
  LiveSpectrogram.

Lemma shift_left_one_column_witness :
  0 <= 2 /\
  Z.of_nat (length [x01; x02; x03; x04; x05; x06; x07; x08; x09]) = 9 /\
  2 <= Z.of_nat (length [x00; x00]) /\
  get (copyWithin [x01; x02; x03; x04; x05; x06; x07; x08; x09] 0 3 10) 4
  = get [x01; x02; x03; x04; x05; x06; x07; x08; x09] (4 + 3).
Proof.
  assert (0 <= 2) as H0 by lia.
  assert (Z.of_nat (length [x01; x02; x03; x04; x05; x06; x07; x08; x09]) = 9)
    as H1 by reflexivity.
  assert (2 <= Z.of_nat (length [x00; x00])) as H2 by (simpl; lia).
  split; [assumption |]. split; [assumption |]. split; [assumption |].
  destruct (shift_left_one_column [x0a; x0b] [x00; x00]
              [x01; x02; x03; x04; x05; x06; x07; x08; x09] 2 9 H0 H1 H2)
    as (_ & Hshift & _).
  apply (Hshift 4). lia.
Defined.

Lemma last_column_stays_zero_witness :
  let params :=
    {| xsize := 4; ysize := 2; frequencySamples := 1; timeSamples := 2 |} in
  0 < timeSamples params /\ 0 < frequencySamples params /\
  frequencySamples params <= Z.of_nat (length [x00]) /\
  exists g dataArray' heights',
    @createGeometry rational_host params = Some g /\
    runTicks [[x05]; [x07]; [x09]; [x0b]] [x00] (heights g) 1 (nVertices g)
    = Some (dataArray', heights') /\
    get heights' (nVertices g - 1) = Some x00.
Proof.
  intros params.
  assert (0 < timeSamples params) as HT by (simpl; lia).
  assert (0 < frequencySamples params) as HF by (simpl; lia).
  assert (frequencySamples params <= Z.of_nat (length [x00])) as Hd
    by (simpl; lia).
  split; [assumption |]. split; [assumption |]. split; [assumption |].
  destruct (@last_column_stays_zero rational_host params
              [[x05]; [x07]; [x09]; [x0b]] [x00] HT HF Hd)
    as (g & d' & h' & Hg & Hrun & Hzero & _).
  exists g, d', h'. split; [assumption |]. split; [assumption |].
  apply Hzero. lia.
Defined.

Lemma geometry_build_zeroed_witness :
  let params :=
    {| xsize := 4; ysize := 2; frequencySamples := 1; timeSamples := 2 |} in
  0 < timeSamples params /\ 0 < frequencySamples params /\
  (0 < xsize params)%Q /\ (0 < ysize params)%Q /\
  exists g,
    @createGeometry rational_host params = Some g /\ nVertices g = 6 /\
    get (heights g) 5 = Some x00.
Proof.
  intros params.
  assert (0 < timeSamples params) as HT by (simpl; lia).
  assert (0 < frequencySamples params) as HF by (simpl; lia).
  assert (0 < xsize params)%Q as Hx by reflexivity.
  assert (0 < ysize params)%Q as Hy by reflexivity.
  split; [assumption |]. split; [assumption |].
  split; [assumption |]. split; [assumption |].
  destruct (@geometry_build_zeroed rational_host params HT HF Hx Hy)
    as (g & Hg & Hn & _ & _ & Hzero & _).
  exists g. split; [assumption |]. split; [exact Hn |].
  apply Hzero. rewrite Hn. simpl. lia.
Defined.

Lemma vertex_coordinates_witness :
  let params :=
    {| xsize := 4; ysize := 2; frequencySamples := 1; timeSamples := 2 |} in
  0 < timeSamples params /\ 0 < frequencySamples params /\
  0 <= 1 <= timeSamples params /\ 0 <= 0 <= frequencySamples params /\
  exists vd,
    @generateVertices rational_host params = Some vd /\
    itemAt (vd_vertices vd) (1 * (1 + 1) + 0)
    = Some ((inject_Z 1 * (4 / inject_Z 2) - 4 / 2)%Q,
            (- @Math_pow rational_host (@Math_E rational_host)
                 (inject_Z (1 - 0) / inject_Z 1 * @Math_log rational_host 2)
             + 2 / 2 + 1)%Q,
            0%Q).
Proof.
  intros params.
  assert (0 < timeSamples params) as HT by (simpl; lia).
  assert (0 < frequencySamples params) as HF by (simpl; lia).
  assert (0 <= 1 <= timeSamples params) as Hi by (simpl; lia).
  assert (0 <= 0 <= frequencySamples params) as Hj by (simpl; lia).
  split; [assumption |]. split; [assumption |].
  split; [assumption |]. split; [assumption |].
  exact (@vertex_coordinates rational_host params 1 0 HT HF Hi Hj).
Defined.

Lemma two_triangles_per_quad_witness :
  0 <= 1 < 2 /\ 0 <= 0 < 2 /\
  itemAt (generateIndices 2 2) (2 * (1 * 2 + 0)) = Some (4, 3, 7) /\
  itemAt (generateIndices 2 2) (2 * (1 * 2 + 0) + 1) = Some (3, 6, 7).
Proof.
  assert (0 <= 1 < 2) as Hi by lia.
  assert (0 <= 0 < 2) as Hj by lia.
  split; [assumption |]. split; [assumption |].
  destruct (two_triangles_per_quad 2 2) as (_ & Hquad & _).
  exact (Hquad 1 0 Hi Hj).
Defined.

Lemma fft_size_nearest_power_clamped_witness :
  0 < 100 /\
  exists k,
    0 <= k /\
    4 ^ k <= 2 * ((4 * 100) * (4 * 100)) < 4 ^ (k + 1) /\
    calculateFFTSize 100 = Z.max (2 ^ 8) (Z.min (2 ^ 14) (2 ^ k)).
Proof.
  assert (0 < 100) as H100 by lia.
  split; [assumption |].
  destruct fft_size_nearest_power_clamped as (Hpos & _).
  exact (Hpos 100 H100).
Defined.

Lemma near_zero_intensity_dark_tint_witness :
  (2 / 255.0 < 0.01)%Q /\
  main (getColorSchemeValue grayscale) 2
  = Vec4 (Vec3 0.05 0.05 0.05) 1.0%Q.
Proof.
  assert (2 / 255.0 < 0.01)%Q as Hlow by reflexivity.
  split; [assumption |].
  destruct (near_zero_intensity_dark_tint grayscale 2 Hlow) as (Hmain & _).
  exact Hmain.
Defined.


End Witnesses.

(** * Further properties of the code *)

(** ** The scroll buffer over several ticks *)

Section ScrollFacts.

Import Loop Analyser Animation.

Implicit Types (analyser dataArray heights : list byte).
Implicit Types (frames : list (list byte)).
Implicit Types (frequencySamples nVertices : Z).

(** One tick, cell by cell, on the part of the buffer left of the column it
    writes. *)
Lemma tick_cells analyser dataArray heights frequencySamples nVertices :
  0 <= frequencySamples ->
  Z.of_nat (length heights) = nVertices ->
  frequencySamples <= Z.of_nat (length dataArray) ->
  exists dataArray' heights',
    updateSpectrogramData analyser dataArray heights frequencySamples nVertices
    = Some (dataArray', heights') /\
    length dataArray' = length dataArray /\
    length heights' = length heights /\
    forall k, 0 <= k < nVertices - 2 * (frequencySamples + 1) ->
      get heights' k = get heights (k + (frequencySamples + 1)).
Proof.
  intros HF Hlen Hd.
  eexists _, _. split; [by apply updateSpectrogramData_unfold |].
  split; [by apply length_sampled |].
  split; [by rewrite length_insertColumn, length_copyWithin |].
  intros k Hk.
  rewrite get_insertColumn_outside by lia.
  rewrite get_shift by done. case_decide; [done | lia].
Qed.

Lemma runTicks_app frames1 frames2 dataArray heights
    frequencySamples nVertices :
  runTicks (frames1 ++ frames2) dataArray heights frequencySamples nVertices
  = match runTicks frames1 dataArray heights frequencySamples nVertices with
    | Some (d, h) => runTicks frames2 d h frequencySamples nVertices
    | None => None
    end.
Proof.
  revert dataArray heights.
  induction frames1 as [| f rest IH]; intros dataArray heights; [done |].
  simpl.
  destruct (updateSpectrogramData f dataArray heights frequencySamples
              nVertices) as [[d h] |]; simpl; [apply IH | done].
Qed.

(** A run of ticks, on the part of the buffer that stays left of every
    column written: the old content moves left by one column per tick. *)
Lemma runTicks_cells frames dataArray heights frequencySamples nVertices :
  0 <= frequencySamples ->
  Z.of_nat (length heights) = nVertices ->
  frequencySamples <= Z.of_nat (length dataArray) ->
  exists dataArray' heights',
    runTicks frames dataArray heights frequencySamples nVertices
    = Some (dataArray', heights') /\
    length dataArray' = length dataArray /\
    length heights' = length heights /\
    forall k,
      0 <= k < nVertices
               - (Z.of_nat (length frames) + 1) * (frequencySamples + 1) ->
      get heights' k
      = get heights
          (k + Z.of_nat (length frames) * (frequencySamples + 1)).
Proof.
  intros HF. revert dataArray heights.
  induction frames as [| f rest IH]; intros dataArray heights Hlen Hd.
  - eexists _, _. split; [done |]. split; [done |]. split; [done |].
    intros k _. simpl. f_equal. lia.
  - destruct (tick_cells f dataArray heights frequencySamples nVertices)
      as (d1 & h1 & Htick & Hld & Hlh & Hcell); [done .. |].
    destruct (IH d1 h1) as (d' & h' & Hrun & Hld' & Hlh' & Hcells);
      [lia | lia |].
    exists d', h'. simpl. rewrite Htick. simpl.
    split; [done |]. split; [lia |]. split; [lia |].
    intros k Hk.
    replace (Z.of_nat (length (f :: rest)))
      with (Z.of_nat (length rest) + 1) in * by (simpl; lia).
    rewrite Hcells by nia.
    rewrite Hcell by nia. f_equal. lia.
Qed.

End ScrollFacts.

Section ScrollProperties.

Import Loop Analyser Animation.

(** X1.  A tick throws exactly when the sample count is negative or the data
    array is shorter than the sample count; nothing else makes it fail, not
    an analyser with too few bins and not a heights buffer of another
    length than [nVertices]. *)
Theorem tick_throws_iff
    (analyser dataArray heights : list byte) (frequencySamples nVertices : Z) :
  updateSpectrogramData analyser dataArray heights frequencySamples nVertices
  = None
  <-> frequencySamples < 0 \/ Z.of_nat (length dataArray) < frequencySamples.
Proof.
  unfold updateSpectrogramData, create.
  destruct (frequencySamples <? 0) eqn:EF; simpl.
  - split; [intros _; left; lia | done].
  - unfold set.
    rewrite length_getByteFrequencyData, length_replicate.
    destruct (length dataArray <? Z.to_nat frequencySamples)%nat eqn:E; simpl.
    + apply Nat.ltb_lt in E. split; [intros _; right; lia | done].
    + apply Nat.ltb_ge in E. split; [done | lia].
Qed.

(** X2.  What a tick leaves in the data array: cell [j] below the sample
    count is bin [j] of the analyser, zero where the analyser has no such
    bin; the cells from the sample count on are not touched. *)
Theorem tick_data_array
    (analyser dataArray heights : list byte) (frequencySamples nVertices : Z) :
  0 <= frequencySamples ->
  frequencySamples <= Z.of_nat (length dataArray) ->
  exists dataArray' heights',
    updateSpectrogramData analyser dataArray heights frequencySamples nVertices
    = Some (dataArray', heights') /\
    length dataArray' = length dataArray /\
    (forall j, 0 <= j < frequencySamples ->
       get dataArray' j = Some (default x00 (get analyser j))) /\
    (forall j, frequencySamples <= j -> get dataArray' j = get dataArray j).
Proof.
  intros HF Hd.
  eexists _, _. split; [by apply updateSpectrogramData_unfold |].
  split; [by apply length_sampled |]. split.
  - intros j Hj. rewrite get_sampled by done. f_equal.
    destruct (get analyser j) as [b |]; [apply or_zero_id | done].
  - intros j Hj. unfold sampled, get.
    destruct (j <? 0) eqn:E; [done |].
    rewrite lookup_app_r
      by (rewrite length_getByteFrequencyData, length_replicate; lia).
    rewrite length_getByteFrequencyData, length_replicate.
    rewrite lookup_drop. f_equal. lia.
Qed.

(** X3.  The buffer scrolls: after [n] ticks every cell that lies more than
    [n + 1] columns from the right end holds what the cell [n] columns to
    its right held before the ticks.  On a zeroed buffer those cells are
    still zero. *)
Theorem ticks_scroll_old_content
    (frames : list (list byte)) (dataArray heights : list byte)
    (frequencySamples nVertices : Z) :
  0 <= frequencySamples ->
  Z.of_nat (length heights) = nVertices ->
  frequencySamples <= Z.of_nat (length dataArray) ->
  let n := Z.of_nat (length frames) in
  let stride := frequencySamples + 1 in
  exists dataArray' heights',
    runTicks frames dataArray heights frequencySamples nVertices
    = Some (dataArray', heights') /\
    (forall k, 0 <= k < nVertices - (n + 1) * stride ->
       get heights' k = get heights (k + n * stride)) /\
    (heights = replicate (Z.to_nat nVertices) x00 ->
     forall k, 0 <= k < nVertices - (n + 1) * stride ->
       get heights' k = Some x00).
Proof.
  intros HF Hlen Hd n stride. subst n stride.
  destruct (runTicks_cells frames dataArray heights frequencySamples nVertices)
    as (d' & h' & Hrun & _ & _ & Hcells); [done .. |].
  exists d', h'. split; [done |]. split; [done |].
  intros -> k Hk. rewrite Hcells by done.
  apply get_replicate_zero. nia.
Qed.

(** X4.  The scroll history: the frame that was sampled [m] ticks before
    the last one sits in the column that starts [m + 2] columns from the
    right end, as long as that column exists.  Its cell [j] is bin [j] of
    that frame (zero where the frame has no such bin) and its closing cell
    repeats the last bin written. *)
Theorem ticks_keep_history
    (older newer : list (list byte)) (frame dataArray heights : list byte)
    (frequencySamples nVertices : Z) :
  0 < frequencySamples ->
  Z.of_nat (length heights) = nVertices ->
  frequencySamples <= Z.of_nat (length dataArray) ->
  let m := Z.of_nat (length newer) in
  let stride := frequencySamples + 1 in
  (m + 2) * stride <= nVertices ->
  exists dataArray' heights',
    runTicks (older ++ frame :: newer) dataArray heights
      frequencySamples nVertices
    = Some (dataArray', heights') /\
    forall j, 0 <= j <= frequencySamples ->
      get heights' (nVertices - (m + 2) * stride + j)
      = Some (default x00 (get frame (Z.min j (frequencySamples - 1)))).
Proof.
  intros HF Hlen Hd m stride Hroom. subst m stride.
  set (F := frequencySamples) in *.
  destruct (runTicks_cells older dataArray heights F nVertices)
    as (d1 & h1 & Hrun1 & Hld1 & Hlh1 & _); [lia | done | done |].
  destruct (tick_sample_column frame d1 h1 F nVertices)
    as (d2 & h2 & Htick & Hdata & Hclosing); [done | lia | nia | lia |].
  cbv zeta in Hdata, Hclosing.
  destruct (tick_cells frame d1 h1 F nVertices)
    as (d2' & h2' & Htick' & Hld2 & Hlh2 & _); [lia | lia | lia |].
  rewrite Htick in Htick'. injection Htick' as <- <-.
  destruct (runTicks_cells newer d2 h2 F nVertices)
    as (d' & h' & Hrun2 & _ & _ & Hcells); [lia | lia | lia |].
  exists d', h'. split.
  - rewrite runTicks_app, Hrun1. simpl. rewrite Htick. simpl. exact Hrun2.
  - intros j Hj. rewrite Hcells by nia.
    replace (nVertices - (Z.of_nat (length newer) + 2) * (F + 1) + j
             + Z.of_nat (length newer) * (F + 1))
      with (nVertices - 2 * (F + 1) + j) by lia.
    assert (forall i, 0 <= i < F ->
              get h2 (nVertices - 2 * (F + 1) + i)
              = Some (default x00 (get frame i))) as Hbin.
    { intros i Hi. rewrite Hdata by done. f_equal.
      destruct (get frame i) as [b |]; [apply or_zero_id | done]. }
    destruct (decide (j = F)) as [-> | Hne].
    + rewrite Hclosing.
      replace (nVertices - 2 * (F + 1) + F - 1)
        with (nVertices - 2 * (F + 1) + (F - 1)) by lia.
      rewrite Hbin by lia. by rewrite Z.min_r by lia.
    + rewrite Hbin by lia. by rewrite Z.min_l by lia.
Qed.

End ScrollProperties.

(** ** The FFT size *)

Section FftFacts.

Import Config Helpers.

Lemma Math_round_log2_mono v w :
  0 < v -> v <= w -> Math_round_log2 v <= Math_round_log2 w.
Proof.
  intros Hv Hvw. unfold Math_round_log2.
  apply Z.div_le_mono; [lia |].
  apply Z.add_le_mono_r. apply Z.log2_le_mono. nia.
Qed.

Lemma getNearestPowerOf2_exponent value :
  exists e, 8 <= e <= 14 /\ getNearestPowerOf2 value = 2 ^ e.
Proof.
  unfold getNearestPowerOf2. destruct (value <=? 0).
  - exists 8. split; [lia | done].
  - exists (Z.max 8 (Z.min 14 (Math_round_log2 value))).
    split; [| done].
    replace (Math_log2_pow2 ANALYSER_CONFIG.MIN_FFT_SIZE) with 8 by done.
    replace (Math_log2_pow2 ANALYSER_CONFIG.MAX_FFT_SIZE) with 14 by done.
    lia.
Qed.

End FftFacts.

Section FftProperties.

Import Config Helpers.

(** X5.  Whatever the sample count, the FFT size is a power of two from
    [2^8] to [2^14], which the analyser's [fftSize] accepts. *)
Theorem fft_size_is_power_of_two (frequencySamples : Z) :
  exists e, 8 <= e <= 14 /\ calculateFFTSize frequencySamples = 2 ^ e.
Proof. apply getNearestPowerOf2_exponent. Qed.

(** X6.  More frequency samples never give a smaller FFT size. *)
Theorem fft_size_monotone (f1 f2 : Z) :
  f1 <= f2 -> calculateFFTSize f1 <= calculateFFTSize f2.
Proof.
  intros Hle. unfold calculateFFTSize, ANALYSER_CONFIG.FFT_MULTIPLIER.
  destruct (getNearestPowerOf2_exponent (4 * f2)) as (e2 & He2 & Hg2).
  destruct (decide (0 < f1)) as [Hpos | Hneg].
  - rewrite !getNearestPowerOf2_pos by lia.
    pose proof (Math_round_log2_mono (4 * f1) (4 * f2) ltac:(lia) ltac:(lia))
      as Hk.
    pose proof (Z.pow_le_mono_r 2 _ _ ltac:(lia) Hk) as Hp.
    lia.
  - rewrite Hg2. unfold getNearestPowerOf2.
    destruct (4 * f1 <=? 0) eqn:E; [| lia].
    change ANALYSER_CONFIG.MIN_FFT_SIZE with (2 ^ 8).
    apply Z.pow_le_mono_r; lia.
Qed.

(** X7.  For up to 8192 frequency samples the analyser set up with the
    computed FFT size has at least as many bins (half the FFT size) as there
    are samples, so every cell of a sampled column comes from a bin. *)
Theorem fft_bins_cover_samples (frequencySamples : Z) :
  0 < frequencySamples <= 8192 ->
  frequencySamples <= calculateFFTSize frequencySamples / 2.
Proof.
  intros [Hpos Hmax].
  unfold calculateFFTSize, ANALYSER_CONFIG.FFT_MULTIPLIER.
  rewrite getNearestPowerOf2_pos by lia.
  destruct (Math_round_log2_nearest (4 * frequencySamples) ltac:(lia))
    as [Hk [_ Hhi]].
  set (k := Math_round_log2 (4 * frequencySamples)) in *.
  assert (4 ^ (k + 1) = 2 ^ (k + 1) * 2 ^ (k + 1)) as H4
    by (rewrite <- Z.pow_mul_l; done).
  assert (2 ^ (k + 1) = 2 * 2 ^ k) as H2
    by (rewrite Z.pow_add_r by lia; simpl; lia).
  assert (0 < 2 ^ k) as Hp by (apply Z.pow_pos_nonneg; lia).
  assert (2 * frequencySamples < 2 ^ k) as Hbig by nia.
  apply Z.div_le_lower_bound; [lia |].
  change (2 ^ 8) with 256. change (2 ^ 14) with 16384. lia.
Qed.

End FftProperties.

(** ** The colour scheme buttons *)

Section SchemeButtons.

Import Config JsArray RadioPlayer.

(** X8.  The two buttons walk one cycle through the eleven schemes: each
    always yields a scheme, "next" undoes "previous" and "previous" undoes
    "next", and eleven steps of "next" come back to the start and no fewer
    do. *)
Theorem scheme_buttons_cycle (c : ColorScheme) :
  (exists n, handleColorSchemeNext c = Some n /\
             handleColorSchemePrev n = Some c) /\
  (exists p, handleColorSchemePrev c = Some p /\
             handleColorSchemeNext p = Some c) /\
  Nat.iter 11 (fun o => o ≫= handleColorSchemeNext) (Some c) = Some c /\
  forall k : nat, (0 < k < 11)%nat ->
    Nat.iter k (fun o => o ≫= handleColorSchemeNext) (Some c) <> Some c.
Proof.
  split; [| split; [| split]].
  - destruct c; eexists; (split; [reflexivity |]); reflexivity.
  - destruct c; eexists; (split; [reflexivity |]); reflexivity.
  - by destruct c.
  - intros k Hk.
    assert (k = 1 \/ k = 2 \/ k = 3 \/ k = 4 \/ k = 5 \/ k = 6 \/ k = 7
            \/ k = 8 \/ k = 9 \/ k = 10)%nat as Hcases by lia.
    destruct c;
      repeat (destruct Hcases as [-> | Hcases]; [by vm_compute |]);
      subst k; by vm_compute.
Qed.

End SchemeButtons.

(** ** The geometry as the renderer needs it *)

Section GeometryShape.

Import Loop Helpers Geometry Rows.

(** Every triangle of the index buffer belongs to a quad of the grid. *)
Lemma itemAt_generateIndices_inv timeSamples frequencySamples t triangle :
  itemAt (generateIndices timeSamples frequencySamples) t = Some triangle ->
  exists i j,
    0 <= i < timeSamples /\ 0 <= j < frequencySamples /\
    let b := i * (frequencySamples + 1) + j in
    let c := (i + 1) * (frequencySamples + 1) + j in
    triangle = (b + 1, b, c + 1) \/ triangle = (b, c, c + 1).
Proof.
  intros Ht. set (F := frequencySamples) in *.
  pose proof (itemAt_Some_lt _ _ _ Ht) as [Ht0 Htl].
  destruct (decide (0 < timeSamples /\ 0 < F)) as [[HT HF] | Hno].
  2:{ rewrite generateIndices_empty in Htl by lia. simpl in Htl. lia. }
  rewrite length_generateIndices in Htl by lia.
  pose proof (Z.div_mod t 2 ltac:(lia)) as Htq.
  pose proof (Z.mod_pos_bound t 2 ltac:(lia)) as Hm.
  assert (0 <= t / 2 < timeSamples * F) as Hq by nia.
  pose proof (Z.div_mod (t / 2) F ltac:(lia)) as Hqij.
  pose proof (Z.mod_pos_bound (t / 2) F HF) as Hjb.
  assert (0 <= t / 2 / F < timeSamples) as Hib by nia.
  exists (t / 2 / F), (t / 2 mod F). split; [done |]. split; [done |].
  destruct (itemAt_generateIndices timeSamples F _ _ Hib Hjb) as [H1 H2].
  replace (t / 2 / F * F + t / 2 mod F) with (t / 2) in * by lia.
  cbv zeta.
  destruct (decide (t mod 2 = 0)) as [H0 | H1'].
  - left. replace (2 * (t / 2)) with t in H1 by lia.
    rewrite H1 in Ht. injection Ht as <-.
    apply (f_equal2 pair); [apply (f_equal2 pair) |]; lia.
  - right. replace (2 * (t / 2) + 1) with t in H2 by lia.
    rewrite H2 in Ht. injection Ht as <-.
    apply (f_equal2 pair); [apply (f_equal2 pair) |]; lia.
Qed.

Lemma length_generateVertices_rows `{HostMath} (params : Params) :
  0 <= timeSamples params -> 0 <= frequencySamples params ->
  Z.of_nat (length (for_le 0 (timeSamples params)
                      (fun i a => a ++ rowOf params i) []))
  = 3 * ((frequencySamples params + 1) * (timeSamples params + 1)).
Proof.
  intros HT HF. unfold for_le.
  destruct (for_lt_blocks (rowOf params)
              (3 * Z.to_nat (frequencySamples params + 1)) 0
              (timeSamples params + 1)) as [Hl _];
    [lia | intros; by apply length_rowOf |].
  rewrite Hl. nia.
Qed.

End GeometryShape.

Section GeometryProperties.

Import Helpers Geometry.

(** X9.  Every triangle of the index buffer names three different
    vertices, and each of them is a vertex of the grid: an index from 0 to
    the vertex count less one. *)
Theorem triangles_are_proper (timeSamples frequencySamples t p q r : Z) :
  itemAt (generateIndices timeSamples frequencySamples) t = Some (p, q, r) ->
  let nVertices := calculateVertexCount frequencySamples timeSamples in
  (0 <= p < nVertices /\ 0 <= q < nVertices /\ 0 <= r < nVertices) /\
  p <> q /\ q <> r /\ p <> r.
Proof.
  intros Ht nVertices. subst nVertices. unfold calculateVertexCount.
  destruct (itemAt_generateIndices_inv _ _ _ _ Ht)
    as (i & j & Hi & Hj & [Heq | Heq]); cbv zeta in Heq;
    injection Heq as -> -> ->; repeat split; nia.
Qed.

(** X10.  For valid sample counts the three attributes of the geometry fit
    together: three position numbers per vertex, one displacement cell per
    vertex, six indices per quad. *)
Theorem geometry_attribute_sizes `{HostMath} (params : Params) :
  0 < timeSamples params -> 0 < frequencySamples params ->
  exists g,
    createGeometry params = Some g /\
    Z.of_nat (length (position (geometry g))) = 3 * nVertices g /\
    Z.of_nat (length (displacement (geometry g))) = nVertices g /\
    Z.of_nat (length (index (geometry g)))
    = 6 * (timeSamples params * frequencySamples params) /\
    vertices g = position (geometry g).
Proof.
  intros HT HF. unfold createGeometry.
  rewrite generateVertices_unfold by nia. simpl.
  eexists. split; [done |]. simpl.
  split; [apply length_generateVertices_rows; lia |].
  split; [rewrite length_replicate; nia |].
  split; [rewrite length_generateIndices by lia; lia | done].
Qed.

(** X11.  Along the time axis: the vertices of one time column share their
    x, the first column sits at [- xsize / 2], and for a positive width the
    columns of the grid go strictly from left to right.  (The last column
    is at [timeSamples * (xsize / timeSamples) - xsize / 2]; the rounding
    of the code's arithmetic need not make that [xsize / 2], and nothing is
    said about it here.) *)
Theorem grid_columns_left_to_right `{HostMath} (params : Params) :
  0 < timeSamples params -> 0 < frequencySamples params ->
  exists vd x,
    generateVertices params = Some vd /\
    (forall i j,
       0 <= i <= timeSamples params -> 0 <= j <= frequencySamples params ->
       exists y,
         itemAt (vd_vertices vd) (i * (frequencySamples params + 1) + j)
         = Some (x i, y, 0%Q)) /\
    (x 0%Z == - (xsize params / 2))%Q /\
    ((0 < xsize params)%Q ->
     forall i i', 0 <= i -> i < i' -> i' <= timeSamples params ->
       (x i < x i')%Q).
Proof.
  intros HT HF.
  rewrite generateVertices_unfold by nia.
  eexists _, (Rows.xOf params). split; [done |]. simpl.
  assert (~ inject_Z (timeSamples params) == 0)%Q as HTq.
  { intros Heq. unfold Qeq in Heq. simpl in Heq. lia. }
  split; [| split].
  - intros i j Hi Hj. eexists. by apply itemAt_vertices.
  - unfold Rows.xOf. simpl. field. done.
  - intros Hx i i' _ Hlt _. unfold Rows.xOf.
    assert (0 < xsize params / inject_Z (timeSamples params))%Q as Hu.
    { apply Qlt_shift_div_l; [| lra].
      unfold Qlt. simpl. lia. }
    assert (inject_Z i < inject_Z i')%Q as Hii
      by (rewrite <- Zlt_Qlt; done).
    set (u := (xsize params / inject_Z (timeSamples params))%Q) in *.
    nra.
Qed.

End GeometryProperties.

(** ** The shaders on the values the heights buffer can hold *)

(** Division by the constant 255.0 as a multiplication, for [lra]. *)
Ltac over_255 :=
  unfold Qdiv in *;
  let c := eval compute in (/ 255.0)%Q in
  change (/ 255.0)%Q with c in *.

Section ShaderFacts.

Import Shaders.

Lemma lt_cases x y :
  (lt x y = true /\ (x < y)%Q) \/ (lt x y = false /\ (y <= x)%Q).
Proof.
  unfold lt. destruct (Qle_bool y x) eqn:E; simpl.
  - right. split; [done |]. by apply Qle_bool_iff.
  - left. split; [done |]. apply Qnot_le_lt. intros Hle.
    apply Qle_bool_iff in Hle. congruence.
Qed.

Lemma attributeValue_range (cell : byte) :
  exists d, 0 <= d <= 255 /\ VertexShader.attributeValue cell = inject_Z d.
Proof.
  exists (Z.of_N (Byte.to_N cell)). split; [| done].
  pose proof (Byte.to_N_bounded cell). lia.
Qed.

Lemma inject_Z_range d lo hi :
  lo <= d <= hi -> (inject_Z lo <= inject_Z d <= inject_Z hi)%Q.
Proof. intros [H1 H2]. split; by rewrite <- Zle_Qle. Qed.

Lemma getColor_unit_cube (colorScheme : Z) (intensity : Q) :
  (0 <= intensity <= 1)%Q ->
  let c := getColor colorScheme intensity in
  (0 <= red c <= 1)%Q /\ (0 <= green c <= 1)%Q /\ (0 <= blue c <= 1)%Q.
Proof.
  intros Hi c. subst c. unfold getColor.
  repeat match goal with
         | |- context [if (?a =? ?b)%Z then _ else _] =>
             destruct (a =? b)%Z
         end;
    repeat match goal with
           | |- context [if lt ?a ?b then _ else _] =>
               destruct (lt_cases a b) as [[-> ?] | [-> ?]]
           end;
    simpl; lra.
Qed.

End ShaderFacts.

Section ShaderProperties.

Import Config Helpers Shaders.

(** X12.  For an intensity from 0 to 1 the gradient of every scheme, the
    default one included, yields a colour whose three components lie between
    0 and 1. *)
Theorem gradient_in_unit_cube (colorScheme : Z) (intensity : Q) :
  (0 <= intensity <= 1)%Q ->
  let c := getColor colorScheme intensity in
  (0 <= red c <= 1)%Q /\ (0 <= green c <= 1)%Q /\ (0 <= blue c <= 1)%Q.
Proof. apply getColor_unit_cube. Qed.

(** X13.  A scheme value outside 0 .. 10 is drawn as scheme 3, purple, the
    scheme the helper falls back to: same gradient, same final colour. *)
Theorem unknown_scheme_is_purple (colorScheme : Z) (v : Q) :
  colorScheme < 0 \/ 10 < colorScheme ->
  getColor colorScheme v = getColor (COLOR_SCHEME_VALUES purple) v /\
  main colorScheme v = main (COLOR_SCHEME_VALUES purple) v.
Proof.
  intros Hout.
  assert (forall n, 0 <= n <= 10 -> (colorScheme =? n) = false) as Hne
    by (intros n Hn; apply Z.eqb_neq; lia).
  unfold main, getColor. simpl.
  rewrite !Hne by lia. done.
Qed.

(** X14.  What a cell of the heights buffer does to its vertex: x and y are
    kept and z becomes [z + cell * maxHeight / 255].  For a non-negative
    [maxHeight] this rise is between 0 and [maxHeight], 0 for the cell 0
    and [maxHeight] for the cell 255, and it grows with the cell.  The
    displacement handed to the fragment shader is the cell itself, so the
    intensity derived from it lies between 0 and 1. *)
Theorem displacement_raises_vertex
    (maxHeight : Q) (position : VertexShader.position3) (cell : byte) :
  (0 <= maxHeight)%Q ->
  let n := inject_Z (Z.of_N (Byte.to_N cell)) in
  let d := VertexShader.attributeValue cell in
  let out := VertexShader.main maxHeight position d in
  let rise :=
    (VertexShader.z (VertexShader.newPosition out)
     - VertexShader.z position)%Q in
  VertexShader.x (VertexShader.newPosition out) = VertexShader.x position /\
  VertexShader.y (VertexShader.newPosition out) = VertexShader.y position /\
  VertexShader.z (VertexShader.newPosition out)
  = (VertexShader.z position + n * maxHeight / 255.0)%Q /\
  (rise == n * maxHeight / 255)%Q /\
  VertexShader.vDisplacement out = n /\
  VertexShader.vPosition out = position /\
  (0 <= rise <= maxHeight)%Q /\
  (cell = x00 -> rise == 0)%Q /\
  (cell = xff -> rise == maxHeight)%Q /\
  (forall cell',
     Z.of_N (Byte.to_N cell) <= Z.of_N (Byte.to_N cell') ->
     (rise
      <= VertexShader.z
           (VertexShader.newPosition
              (VertexShader.main maxHeight position
                 (VertexShader.attributeValue cell')))
         - VertexShader.z position)%Q) /\
  (0 <= VertexShader.vDisplacement out / 255.0 <= 1)%Q.
Proof.
  intros Hm n d out rise. subst rise out. simpl.
  split; [done |]. split; [done |]. split; [done |].
  destruct (attributeValue_range cell) as (k & Hk & Hd).
  pose proof (inject_Z_range k 0 255 Hk) as Hq.
  change (inject_Z 0) with 0%Q in Hq. change (inject_Z 255) with 255%Q in Hq.
  assert (d * maxHeight <= 255 * maxHeight)%Q as Hprod.
  { subst d. rewrite Hd. apply Qmult_le_compat_r; [apply Hq | done]. }
  assert (0 <= d * maxHeight)%Q as Hprod0.
  { subst d. rewrite Hd. apply Qmult_le_0_compat; [apply Hq | done]. }
  split; [| split; [done |]; split; [done |];
            split; [| split; [| split; [| split]]]].
  - change n with d.
    set (w := (d * maxHeight)%Q) in *. clearbody w. over_255.
    let c := eval compute in (/ 255)%Q in change (/ 255)%Q with c.
    lra.
  - set (w := (d * maxHeight)%Q) in *. clearbody w. over_255. lra.
  - intros ->. subst d. unfold VertexShader.attributeValue. simpl.
    change (inject_Z 0) with 0%Q. over_255. lra.
  - intros ->. subst d. unfold VertexShader.attributeValue. simpl.
    change (inject_Z 255) with 255%Q. over_255. lra.
  - intros cell' Hle.
    assert (d * maxHeight
            <= VertexShader.attributeValue cell' * maxHeight)%Q as Hmono.
    { apply Qmult_le_compat_r; [| done].
      subst d. unfold VertexShader.attributeValue.
      by rewrite <- Zle_Qle. }
    set (w := (d * maxHeight)%Q) in *.
    set (w' := (VertexShader.attributeValue cell' * maxHeight)%Q) in *.
    clearbody w w'. over_255. lra.
  - subst d. rewrite Hd. over_255. lra.
Qed.

(** X15.  The fragment colour over the cells of the heights buffer: the
    cells 0, 1 and 2 get the dark tint of the scheme; from 3 up to 127 the
    colour is the gradient itself; from 128 on each component is the
    gradient plus the glow [(intensity - 1/2) / 2].  So a drawn component
    lies between 0 and 1.25. *)
Theorem fragment_colour_by_cell (scheme : ColorScheme) (cell : byte) :
  let cs := getColorSchemeValue scheme in
  let d := Z.of_N (Byte.to_N cell) in
  let intensity := (inject_Z d / 255.0)%Q in
  let gradient := getColor cs intensity in
  let drawn := rgb (main cs (inject_Z d)) in
  (d <= 2 -> drawn = darkTint scheme) /\
  (3 <= d <= 127 -> drawn = vec3_add gradient 0.0%Q) /\
  (128 <= d ->
   drawn = vec3_add gradient ((intensity - 0.5) * 0.5)%Q) /\
  (0 <= red drawn <= 1.25)%Q /\ (0 <= green drawn <= 1.25)%Q /\
  (0 <= blue drawn <= 1.25)%Q.
Proof.
  intros cs d intensity gradient drawn.
  assert (0 <= d <= 255) as Hd
    by (subst d; pose proof (Byte.to_N_bounded cell); lia).
  assert (0 <= intensity <= 1)%Q as Hi.
  { pose proof (inject_Z_range d 0 255 Hd) as Hq.
    change (inject_Z 0) with 0%Q in Hq.
    change (inject_Z 255) with 255%Q in Hq.
    subst intensity. over_255. lra. }
  assert (d <= 2 -> (intensity < 0.01)%Q) as Hlow.
  { intros Hle. pose proof (inject_Z_range d 0 2 ltac:(lia)) as [_ H2].
    change (inject_Z 2) with 2%Q in H2. subst intensity. over_255. lra. }
  assert (3 <= d -> (0.01 < intensity)%Q) as Hmid.
  { intros Hle. pose proof (inject_Z_range d 3 255 ltac:(lia)) as [H3 _].
    change (inject_Z 3) with 3%Q in H3. subst intensity. over_255. lra. }
  assert (d <= 127 -> (intensity < 0.5)%Q) as Hnoglow.
  { intros Hle. pose proof (inject_Z_range d 0 127 ltac:(lia)) as [_ H2].
    change (inject_Z 127) with 127%Q in H2. subst intensity. over_255. lra. }
  assert (128 <= d -> (0.5 < intensity)%Q) as Hglow.
  { intros Hle. pose proof (inject_Z_range d 128 255 ltac:(lia)) as [H3 _].
    change (inject_Z 128) with 128%Q in H3. subst intensity. over_255. lra. }
  pose proof (getColor_unit_cube cs intensity Hi) as Hcube.
  cbv zeta in Hcube. fold gradient in Hcube.
  assert (drawn
          = if lt intensity 0.01 then darkTint scheme
            else vec3_add gradient
                   (if lt 0.5 intensity then (intensity - 0.5) * 0.5
                    else 0.0)%Q) as Hdrawn.
  { subst drawn gradient cs. unfold main. fold intensity.
    destruct (lt intensity 0.01); [by destruct scheme | done]. }
  clearbody drawn gradient intensity. subst drawn.
  destruct Hcube as (Hr & Hg & Hb).
  destruct (lt_cases intensity 0.01) as [[-> Hc1] | [-> Hc1]].
  - split; [done |].
    split; [intros [H _]; specialize (Hmid H); lra |].
    split; [intros H; specialize (Hglow H); lra |].
    destruct scheme; simpl; lra.
  - destruct (lt_cases 0.5 intensity) as [[-> Hc2] | [-> Hc2]].
    + split; [intros H; specialize (Hlow H); lra |].
      split; [intros [_ H]; specialize (Hnoglow H); lra |].
      split; [done |]. simpl. lra.
    + split; [intros H; specialize (Hlow H); lra |].
      split; [done |].
      split; [intros H; specialize (Hglow H); lra |]. simpl. lra.
Qed.

End ShaderProperties.

(** ** Setting the audio pipelines up *)

Section PipelineFacts.

Import Config Helpers Js WebAudio WebAudioNodes.

Context `{AudioHost}.

(** The analyser takes every FFT size the helper computes. *)
Lemma set_fftSize_calculated (a : AnalyserState) (frequencySamples : Z) :
  set_fftSize a (calculateFFTSize frequencySamples)
  = Returned {| fftSize := calculateFFTSize frequencySamples;
                smoothingTimeConstant := smoothingTimeConstant a;
                toDestination := toDestination a |}.
Proof.
  unfold set_fftSize, calculateFFTSize.
  destruct (getNearestPowerOf2_exponent
              (ANALYSER_CONFIG.FFT_MULTIPLIER * frequencySamples))
    as (e & He & ->).
  assert (e = 8 \/ e = 9 \/ e = 10 \/ e = 11 \/ e = 12 \/ e = 13 \/ e = 14)
    as Hcases by lia.
  repeat (destruct Hcases as [-> | Hcases]; [done |]). by subst e.
Qed.

Lemma set_smoothing_configured (a : AnalyserState) :
  set_smoothingTimeConstant a ANALYSER_CONFIG.SMOOTHING_TIME_CONSTANT
  = Returned {| fftSize := fftSize a;
                smoothingTimeConstant :=
                  ANALYSER_CONFIG.SMOOTHING_TIME_CONSTANT;
                toDestination := toDestination a |}.
Proof. reflexivity. Qed.

Lemma hasActiveAudioTracks_stopped (tracks : list TrackState) :
  MicAudio.hasActiveAudioTracks (map stop tracks) = false.
Proof.
  unfold MicAudio.hasActiveAudioTracks.
  replace (filter (fun track => track = live) (map stop tracks))
    with (@nil TrackState); [done |].
  induction tracks as [| t rest IH]; [done |].
  simpl. rewrite filter_cons_False by done. exact IH.
Qed.

Lemma hasActiveAudioTracks_nonempty (tracks : list TrackState) :
  MicAudio.hasActiveAudioTracks tracks = true -> tracks <> [].
Proof. by intros Hactive ->. Qed.

End PipelineFacts.

(** One of the six names the function knows: its fixed message is shown and
    the name is in the list of the known names. *)
Ltac known_error_name :=
  simpl; split; [done |]; split; [| done];
  intros ? [= <-]; simpl;
  split; [by intros [? | ?] |];
  split; [by intros [? | ?] |];
  split; [by intros [? | ?] |];
  intros Hother; exfalso; apply Hother; simpl; tauto.

Section PipelineProperties.

Import Config Helpers Js WebAudio WebAudioNodes.

Local Open Scope string_scope.

(** X16.  Setting the radio pipeline up on an audio element that feeds no
    source yet never fails: the analyser gets the computed FFT size and the
    smoothing constant 0.5 and feeds the destination, the source is
    connected, the buffer length is half the FFT size, and the element is
    bound from then on.  On a bound element the set-up throws, so it works
    once per element; the error is the host's own unless its message
    contains "already connected", in which case it is a new error whose
    message contains these words too. *)
Theorem radio_pipeline_setup `{AudioHost}
    (audioElement : MediaElement) (frequencySamples : Z) :
  (boundToSource audioElement = false ->
   exists p,
     AudioPipeline.setupAudioPipeline audioElement frequencySamples
     = Returned (p, {| boundToSource := true |}) /\
     fftSize (AudioPipeline.analyser p) = calculateFFTSize frequencySamples /\
     smoothingTimeConstant (AudioPipeline.analyser p) = 0.5%Q /\
     toDestination (AudioPipeline.analyser p) = true /\
     connected (AudioPipeline.source p) = true /\
     AudioPipeline.bufferLength p = calculateFFTSize frequencySamples / 2 /\
     closeRequested (AudioPipeline.audioContext p) = false) /\
  (boundToSource audioElement = true ->
   exists e,
     AudioPipeline.setupAudioPipeline audioElement frequencySamples
     = Raised e /\
     (includes (message element_bound_error) "already connected" = true ->
      name e = "Error" /\ includes (message e) "already connected" = true) /\
     (includes (message element_bound_error) "already connected" = false ->
      e = element_bound_error)).
Proof.
  unfold AudioPipeline.setupAudioPipeline, AudioPipeline.createAudioContext.
  rewrite set_fftSize_calculated. simpl.
  unfold AudioPipeline.createMediaElementSource, hostCreateMediaElementSource.
  split; intros Hbound; rewrite Hbound; simpl.
  - eexists. split; [reflexivity |]. simpl. done.
  - destruct (includes (message element_bound_error) "already connected")
      eqn:Hinc.
    + assert (truthy (message element_bound_error) = true) as ->.
      { unfold truthy. destruct (message element_bound_error); [| done].
        by vm_compute in Hinc. }
      simpl. eexists. split; [reflexivity |]. split; [| done].
      intros _. by vm_compute.
    + rewrite andb_false_r. eexists. split; [reflexivity |]. done.
Qed.

(** X17.  The microphone pipeline is refused with "No active audio tracks in
    microphone stream" when no track of the stream is live, and with "Audio
    context is closed" when a track is live but the context is closed.  With
    a live track and a context on which close was never called it is built:
    the analyser has the computed FFT size and the smoothing constant 0.5,
    the source is connected to it, and the analyser does not feed the
    destination. *)
Theorem mic_pipeline_outcome `{AudioHost}
    (stream : list TrackState) (audioContext : AudioContext)
    (frequencySamples : Z) :
  let result :=
    MicAudio.createMicAudioPipeline stream audioContext frequencySamples in
  (MicAudio.hasActiveAudioTracks stream = false ->
   result = Raised (newError "No active audio tracks in microphone stream")) /\
  (MicAudio.hasActiveAudioTracks stream = true ->
   state audioContext = closed ->
   result = Raised (newError "Audio context is closed")) /\
  (MicAudio.hasActiveAudioTracks stream = true ->
   state audioContext <> closed -> closeRequested audioContext = false ->
   exists p,
     result = Returned p /\
     MicAudio.audioContext p = audioContext /\
     fftSize (MicAudio.analyser p) = calculateFFTSize frequencySamples /\
     smoothingTimeConstant (MicAudio.analyser p) = 0.5%Q /\
     toDestination (MicAudio.analyser p) = false /\
     connected (MicAudio.source p) = true /\
     MicAudio.bufferLength p = calculateFFTSize frequencySamples / 2).
Proof.
  intros result. subst result. unfold MicAudio.createMicAudioPipeline.
  split; [| split].
  - by intros ->.
  - intros -> Hclosed. simpl. by rewrite Hclosed.
  - intros Hactive Hopen Hnoclose. rewrite Hactive. simpl.
    assert (is_closed (state audioContext) = false) as Hic
      by (destruct (state audioContext); done).
    rewrite Hic. simpl.
    rewrite set_fftSize_calculated. simpl.
    unfold hostCreateMediaStreamSource.
    rewrite Hnoclose, Hic. simpl.
    rewrite bool_decide_eq_false_2
      by (by apply hasActiveAudioTracks_nonempty).
    simpl. eexists. split; [reflexivity |]. simpl. done.
Qed.

(** X18.  Once the microphone was stopped, no pipeline can be built on its
    stream again, whatever context is offered; and if no close was under way
    on its context, that context is no longer valid. *)
Theorem stopped_microphone_is_refused `{AudioHost}
    (stream : list TrackState) (audioContext other : AudioContext)
    (frequencySamples : Z) :
  exists stream' audioContext',
    Audio.stopMicrophone (Some stream) (Some audioContext)
    = Normal (Some stream', Some audioContext') /\
    MicAudio.hasActiveAudioTracks stream' = false /\
    MicAudio.createMicAudioPipeline stream' other frequencySamples
    = Raised (newError "No active audio tracks in microphone stream") /\
    (closeRequested audioContext = false ->
     MicAudio.isAudioContextValid (Some audioContext') = false).
Proof.
  unfold Audio.stopMicrophone.
  exists (map stop stream).
  assert (MicAudio.hasActiveAudioTracks (map stop stream) = false) as Hstopped
    by apply hasActiveAudioTracks_stopped.
  destruct audioContext as [st cr]; destruct st, cr; simpl;
    eexists; (split; [reflexivity |]); (split; [exact Hstopped |]);
    (split; [unfold MicAudio.createMicAudioPipeline; by rewrite Hstopped |]);
    done.
Qed.

(** X19.  The message shown for a microphone error is never empty.  The
    name of the error decides first: the two permission names, the two
    not-found names and the two not-readable names give their fixed
    message whatever the error's own message.  An error of any other name
    gives its own message when it has one and the generic message when it
    has none, as does a missing error. *)
Theorem microphone_error_message (error : option JsError) :
  let shown := MicAudio.getMicrophoneErrorMessage error in
  shown <> "" /\
  (forall e, error = Some e ->
     (name e = "NotAllowedError" \/ name e = "PermissionDeniedError" ->
      shown = MicAudio.MIC_ERROR_MESSAGES.PERMISSION_DENIED) /\
     (name e = "NotFoundError" \/ name e = "DevicesNotFoundError" ->
      shown = MicAudio.MIC_ERROR_MESSAGES.NOT_FOUND) /\
     (name e = "NotReadableError" \/ name e = "TrackStartError" ->
      shown = MicAudio.MIC_ERROR_MESSAGES.NOT_READABLE) /\
     (~ In (name e)
          ["NotAllowedError"; "PermissionDeniedError"; "NotFoundError";
           "DevicesNotFoundError"; "NotReadableError"; "TrackStartError"] ->
      (message e <> "" -> shown = message e) /\
      (message e = "" -> shown = MicAudio.MIC_ERROR_MESSAGES.GENERIC))) /\
  (error = None -> shown = MicAudio.MIC_ERROR_MESSAGES.GENERIC).
Proof.
  intros shown. subst shown.
  destruct error as [[n m] |]; [| by repeat split].
  unfold MicAudio.getMicrophoneErrorMessage. simpl.
  destruct (String.eqb_spec n "NotAllowedError") as [-> | H1];
    [by known_error_name |].
  destruct (String.eqb_spec n "PermissionDeniedError") as [-> | H2];
    [by known_error_name |].
  destruct (String.eqb_spec n "NotFoundError") as [-> | H3];
    [by known_error_name |].
  destruct (String.eqb_spec n "DevicesNotFoundError") as [-> | H4];
    [by known_error_name |].
  destruct (String.eqb_spec n "NotReadableError") as [-> | H5];
    [by known_error_name |].
  destruct (String.eqb_spec n "TrackStartError") as [-> | H6];
    [by known_error_name |].
  simpl. unfold truthy.
  destruct (String.eqb_spec m "") as [-> | Hm]; simpl.
  - split; [done |]. split; [| done].
    intros e [= <-]. simpl.
    split; [by intros [? | ?] |]. split; [by intros [? | ?] |].
    split; [by intros [? | ?] |]. intros _. by split.
  - split; [done |]. split; [| done].
    intros e [= <-]. simpl.
    split; [by intros [? | ?] |]. split; [by intros [? | ?] |].
    split; [by intros [? | ?] |]. intros _. by split.
Qed.

(** X20.  [ensureAudioContextRunning] answers false only for a suspended
    context on which a close is under way.  When it answers true the context
    runs if it was suspended, and is untouched otherwise: a closed context
    also gets the answer true, so validity needs its own check. *)
Theorem ensure_running_outcome (audioContext : AudioContext) :
  let after := (MicAudio.ensureAudioContextRunning audioContext).1 in
  let answer := (MicAudio.ensureAudioContextRunning audioContext).2 in
  (answer = false <->
   state audioContext = suspended /\ closeRequested audioContext = true) /\
  (answer = true -> state audioContext = suspended ->
   state after = running) /\
  (state audioContext <> suspended ->
   answer = true /\ after = audioContext).
Proof.
  destruct audioContext as [st cr]; destruct st, cr; simpl;
    repeat split; try done; try (by intros [? ?]).
Qed.

End PipelineProperties.

(** ** The component: clean-up and rebuild *)

Section ComponentCleanupFacts.

Import WebAudio Audio WebAudioNodes Three LiveSpectrogram Cleanup.

Lemma disconnect_attempt (node : AudioNode) :
  exists node',
    try_catch (do n <- disconnect node; Normal (Some n))
              (fun _ => Normal (Some node))
    = Normal (Some node') /\ connected node' = false.
Proof.
  unfold disconnect. destruct node as [c h]; destruct c, h; simpl;
    eexists; (split; [reflexivity | done]).
Qed.

Lemma close_released (ctx : AudioContext) :
  context_released (Some (catch_ignore (close ctx))).
Proof.
  intros c [= <-]. unfold close, catch_ignore.
  destruct ctx as [st cr]; destruct st, cr; simpl; auto.
Qed.

Lemma length_filter_remove (l : list nat) (x : nat) :
  NoDup l -> x ∈ l ->
  length (filter (fun e => e <> x) l) = Nat.pred (length l).
Proof.
  intros Hnd Hin. induction Hnd as [| y l Hy Hnd IH]; [by inversion Hin |].
  destruct (decide (y = x)) as [-> | Hne].
  - rewrite filter_cons_False by (intros Hc; by apply Hc).
    simpl. clear IH Hin.
    induction l as [| z l IHl]; [done |].
    apply not_elem_of_cons in Hy as [Hzx Hxl].
    rewrite filter_cons_True by done. simpl. f_equal.
    apply IHl; [done | by inversion Hnd].
  - rewrite filter_cons_True by done. simpl.
    apply elem_of_cons in Hin as [-> | Hin]; [done |].
    rewrite IH by done. destruct l; [by inversion Hin | done].
Qed.

(** The refs a clean-up leaves, written out, and what it did to the audio
    context. *)
Lemma cleanup_refsAfter (refs : ComponentRefs) :
  let t := three refs in
  let a := audio refs in
  exists c,
    cleanup refs = Normal c /\
    refsAfter c
    = {| three :=
           {| containerRef :=
                (cleanupThreeScene (rendererRef t) (meshRef t) (sceneRef t)
                   (containerRef t)).2;
              sceneRef := None; cameraRef := None; rendererRef := None;
              meshRef := None; heightsRef := None; dataRef := None;
              nVerticesRef := nVerticesRef t;
              resizeHandlerRef := false;
              windowResizeListeners :=
                if resizeHandlerRef t then Nat.pred (windowResizeListeners t)
                else windowResizeListeners t |};
         audio :=
           {| animationFrameRef :=
                if pendingFrame (animationFrameRef a) then None
                else animationFrameRef a;
              audioContextRef :=
                match connectedMicStreamRef a with
                | Some _ => audioContextRef a
                | None => None
                end;
              analyserRef := None; sourceRef := None;
              connectedAudioElementRef := None;
              connectedMicStreamRef := None |} |} /\
    (connectedMicStreamRef a <> None -> contextAfter c = audioContextRef a) /\
    (connectedMicStreamRef a = None -> context_released (contextAfter c)).
Proof.
  intros t a. subst t a. unfold cleanup.
  destruct (connectedMicStreamRef (audio refs)) as [mic |].
  - destruct (sourceRef (audio refs)) as [node |].
    + destruct (disconnect_attempt node) as (node' & -> & _). simpl.
      eexists. split; [done |]. simpl. done.
    + simpl. eexists. split; [done |]. simpl. done.
  - destruct (cleanupAudio_returns (sourceRef (audio refs))
                (audioContextRef (audio refs)))
      as (s' & c' & -> & _ & Hrel & _). simpl.
    eexists. split; [done |]. simpl. split; [done |]. split; [done |].
    intros _. destruct c' as [ctx |]; [apply close_released | by intros ?].
Qed.

End ComponentCleanupFacts.

(** ** Invalid parameters *)

Section ParameterChange.

Import Config Helpers Geometry WebAudio Audio WebAudioNodes Three
  LiveSpectrogram Cleanup AnimationLoop.






End ParameterChange.

Section ComponentProperties.

Import Helpers Geometry Animation WebAudio Audio WebAudioNodes Three
  LiveSpectrogram Cleanup.



End ComponentProperties.

Section RebuildProperties.

Import Helpers Geometry Animation Three LiveSpectrogram.

(** X23.  A rebuild on valid parameters leaves the component ready to
    animate: the canvas of the new renderer is in the container; the
    container has one canvas more when there was no renderer, and as many as
    before when the old renderer's canvas was one of its distinct children,
    so canvases do not pile up; and on the buffers the refs now hold every
    run of ticks returns without throwing and keeps the length of the
    heights buffer, which is the vertex count. *)
Theorem rebuild_leaves_component_ready `{HostMath}
    (props : Props) (refs : Refs) (container : Container) :
  containerRef refs = Some container ->
  valid (validateParameters (params props)) = true ->
  let F := frequencySamples (params props) in
  exists refs' container' r h d,
    initializeThree props refs = Normal refs' /\
    containerRef refs' = Some container' /\
    rendererRef refs' = Some r /\
    heightsRef refs' = Some h /\
    dataRef refs' = Some d /\
    Z.of_nat (length h) = nVerticesRef refs' /\
    (domElement r ∈ childNodes container') /\
    (rendererRef refs = None ->
     length (childNodes container') = S (length (childNodes container))) /\
    (forall old, rendererRef refs = Some old ->
       NoDup (childNodes container) ->
       domElement old ∈ childNodes container ->
       length (childNodes container') = length (childNodes container)) /\
    (forall frames, exists d' h',
       runTicks frames d h F (nVerticesRef refs') = Some (d', h') /\
       length h' = length h).
Proof.
  intros Hc Hvalid F. subst F.
  pose proof Hvalid as Hpos.
  apply validateParameters_valid in Hpos as (_ & _ & HF & HT).
  unfold initializeThree. rewrite Hc, Hvalid. simpl.
  unfold createThreeScene, createGeometry.
  rewrite generateVertices_unfold by nia. simpl.
  rewrite create_Some by lia. simpl.
  eexists _, _, _, _, _.
  split; [reflexivity |]. simpl.
  split; [reflexivity |]. split; [reflexivity |].
  split; [reflexivity |]. split; [reflexivity |].
  split; [rewrite length_replicate; nia |].
  split; [apply elem_of_app; right; apply list_elem_of_singleton; done |].
  split; [| split].
  - intros ->. simpl. rewrite length_app. simpl. lia.
  - intros old -> Hnd Hin. simpl. rewrite length_app. simpl.
    rewrite length_filter_remove by done.
    destruct (childNodes container); [by inversion Hin | simpl; lia].
  - intros frames.
    destruct (runTicks_last_column frames
                (replicate (Z.to_nat (frequencySamples (params props))) x00)
                (replicate
                   (Z.to_nat ((frequencySamples (params props) + 1)
                              * (timeSamples (params props) + 1))) x00)
                (frequencySamples (params props))
                ((frequencySamples (params props) + 1)
                 * (timeSamples (params props) + 1)))
      as (d' & h' & Hrun & Hlen & _).
    + lia.
    + rewrite length_replicate. nia.
    + rewrite length_replicate. lia.
    + exists d', h'. split; [exact Hrun | exact Hlen].
Qed.

End RebuildProperties.

(** ** The animation loop *)

Section AnimationLoopProperties.

Import TypedArray Animation Geometry Three LiveSpectrogram Cleanup
  AnimationLoop.

(** X24.  After a clean-up the loop is over: [startAnimation] requests no
    frame, and a frame that still fires finds the refs empty, touches no
    buffer and requests no further frame. *)
Theorem animation_stops_after_cleanup
    (refs : ComponentRefs) (frequencySamples : Z) (analyserData : list byte)
    (nextFrame : nat) :
  exists c,
    cleanup refs = Normal c /\
    startAnimation nextFrame (refsAfter c) = refsAfter c /\
    animate frequencySamples analyserData nextFrame (refsAfter c)
    = Normal (refsAfter c) /\
    pendingFrame (animationFrameRef (audio (refsAfter c))) = false.
Proof.
  destruct (cleanup_refsAfter refs) as (c & Hc & Hr & _).
  exists c. split; [done |].
  rewrite Hr. unfold startAnimation, animate. simpl.
  split; [done |]. split; [done |].
  by destruct (pendingFrame (animationFrameRef (audio refs))) eqn:E.
Qed.

(** X25.  A frame on a ready component (the seven refs set, the mesh
    displaced by the heights buffer, the buffer of [nVertices] cells, a data
    array with room for the sample) never throws: it runs one tick on the
    two buffers, leaves the displacement of the mesh equal to the new
    heights, requests the next frame, keeps container, camera and renderer,
    and leaves the component ready for the frame after. *)
Theorem animate_keeps_ready
    (refs : ComponentRefs) (frequencySamples : Z) (analyserData : list byte)
    (nextFrame : nat) :
  0 <= frequencySamples ->
  ready frequencySamples refs ->
  exists refs' data heights data' heights' mesh',
    animate frequencySamples analyserData nextFrame refs = Normal refs' /\
    dataRef (three refs) = Some data /\
    heightsRef (three refs) = Some heights /\
    updateSpectrogramData analyserData data heights frequencySamples
      (nVerticesRef (three refs))
    = Some (data', heights') /\
    dataRef (three refs') = Some data' /\
    heightsRef (three refs') = Some heights' /\
    meshRef (three refs') = Some mesh' /\
    displacement (mesh_geometry mesh') = heights' /\
    animationFrameRef (audio refs') = Some nextFrame /\
    containerRef (three refs') = containerRef (three refs) /\
    cameraRef (three refs') = cameraRef (three refs) /\
    rendererRef (three refs') = rendererRef (three refs) /\
    ready frequencySamples refs'.
Proof.
  intros HF (Ha & Hs & Hcam & Hren & mesh & data & heights
             & Hmesh & Hdata & Hheights & Halias & Hlen & Hroom).
  destruct Ha as [an Ha], Hs as [sc Hs], Hcam as [cam Hcam],
    Hren as [ren Hren].
  destruct (tick_cells analyserData data heights frequencySamples
              (nVerticesRef (three refs)))
    as (d' & h' & Htick & Hld & Hlh & _); [done .. |].
  unfold animate. rewrite Ha, Hs, Hcam, Hren, Hmesh, Hdata, Hheights.
  rewrite Htick. simpl.
  unfold updateMeshDisplacement, set. simpl.
  rewrite Halias, <- Hlh, Nat.ltb_irrefl. simpl.
  rewrite drop_ge by lia. rewrite app_nil_r.
  eexists _, data, heights, d', h', _.
  split; [reflexivity |]. simpl.
  repeat (split; [done |]).
  unfold ready. simpl.
  repeat (split; [done |]).
  eexists _, d', h'. simpl.
  split; [done |]. split; [done |]. split; [done |]. split; [done |].
  split; lia.
Qed.

End AnimationLoopProperties.

(** ** Validation messages and the sliders *)

Section ValidationProperties.

Import Config Helpers Controls.

Local Open Scope string_scope.

(** X26.  The error list of the validation names the failing parameters and
    no other: each of the four messages is in the list exactly when its
    parameter is zero or negative, and the list has one entry per failing
    parameter at most, four in all at most. *)
Theorem validation_errors_name_failures (params : Params) :
  let errs := errors (validateParameters params) in
  (In "xsize must be greater than 0" errs <-> (xsize params <= 0)%Q) /\
  (In "ysize must be greater than 0" errs <-> (ysize params <= 0)%Q) /\
  (In "frequencySamples must be greater than 0" errs
   <-> (frequencySamples params <= 0)%Z) /\
  (In "timeSamples must be greater than 0" errs
   <-> (timeSamples params <= 0)%Z) /\
  NoDup errs /\ (length errs <= 4)%nat.
Proof.
  intros errs. subst errs. unfold validateParameters.
  destruct (Qle_bool (xsize params) 0) eqn:Ex;
    destruct (Qle_bool (ysize params) 0) eqn:Ey;
    destruct (frequencySamples params <=? 0)%Z eqn:Ef;
    destruct (timeSamples params <=? 0)%Z eqn:Et; simpl;
    try apply Qle_bool_iff in Ex; try apply Qle_bool_iff in Ey;
    try apply Z.leb_le in Ef; try apply Z.leb_le in Et;
    try apply Z.leb_gt in Ef; try apply Z.leb_gt in Et;
    assert (~ (xsize params <= 0)%Q \/ (xsize params <= 0)%Q) as Hx
      by (destruct (Qlt_le_dec 0 (xsize params));
          [left; intros ?; lra | by right]);
    (split; [| split; [| split; [| split; [| split]]]]);
    try lia;
    try (repeat constructor; rewrite ?list_elem_of_In; simpl;
         intuition discriminate);
    try (split; [intros; assumption || lia | intros; simpl; tauto]);
    try (split; [simpl; intros Hin; exfalso;
                 repeat (destruct Hin as [Hin | Hin];
                         [discriminate Hin |]); exact Hin
                | intros Hle; exfalso;
                  first [lia
                        | apply Qle_bool_iff in Hle; congruence]]).
Qed.

(** X27.  Every setting the four sliders offer passes the validation, gets
    an FFT size from 256 to 2048, and that size gives the analyser at least
    as many bins as there are frequency samples. *)
Theorem slider_settings_are_valid (params : Params) :
  offered params ->
  valid (validateParameters params) = true /\
  256 <= calculateFFTSize (frequencySamples params) <= 2048 /\
  frequencySamples params
  <= calculateFFTSize (frequencySamples params) / 2.
Proof.
  intros ((x & Hx & Hxe) & (y & Hy & Hye) & HF & HT).
  unfold offers in *. simpl in *.
  apply andb_prop in Hx as [Hx _]. apply andb_prop in Hx as [Hx _].
  apply andb_prop in Hy as [Hy _]. apply andb_prop in Hy as [Hy _].
  apply andb_prop in HF as [HF HFs]. apply andb_prop in HF as [HF1 HF2].
  apply andb_prop in HT as [HT _]. apply andb_prop in HT as [HT _].
  apply Z.leb_le in Hx, Hy, HF1, HF2, HT. apply Z.eqb_eq in HFs.
  split.
  - apply validateParameters_valid. rewrite Hxe, Hye.
    repeat split; try lia; unfold Qlt; simpl; lia.
  - pose proof (Z.div_mod (frequencySamples params - 64) 64 ltac:(lia))
      as Hdm.
    rewrite HFs in Hdm.
    set (q := (frequencySamples params - 64) / 64) in *. clearbody q.
    assert (q = 0 \/ q = 1 \/ q = 2 \/ q = 3 \/ q = 4 \/ q = 5 \/ q = 6
            \/ q = 7) as Hq by lia.
    assert (frequencySamples params = 64 * (q + 1)) as -> by lia.
    repeat (destruct Hq as [-> | Hq];
            [split; [split |]; vm_compute; discriminate |]).
    rewrite Hq. split; [split |]; vm_compute; discriminate.
Qed.

End ValidationProperties.

(** ** The further properties at work on small inputs *)

Section MoreWitnesses.

Import Config Helpers Geometry Animation Shaders Js WebAudio Audio
  WebAudioNodes Three LiveSpectrogram Cleanup AnimationLoop Controls.

Lemma tick_throws_iff_witness :
  Z.of_nat (length [x00]) < 2 /\
  updateSpectrogramData [x01; x02] [x00] [x00; x00; x00; x00; x00; x00] 2 6
  = None.
Proof.
  assert (Z.of_nat (length [x00]) < 2) as Hshort by (simpl; lia).
  split; [assumption |].
  apply (proj2 (tick_throws_iff [x01; x02] [x00]
                  [x00; x00; x00; x00; x00; x00] 2 6)).
  right. exact Hshort.
Defined.

Lemma tick_data_array_witness :
  0 <= 1 /\ 1 <= Z.of_nat (length [x09; x08]) /\
  exists dataArray' heights',
    updateSpectrogramData [] [x09; x08] [x00; x00; x00; x00] 1 4
    = Some (dataArray', heights') /\
    get dataArray' 0 = Some x00 /\ get dataArray' 1 = Some x08.
Proof.
  assert (0 <= 1) as H0 by lia.
  assert (1 <= Z.of_nat (length [x09; x08])) as H1 by (simpl; lia).
  split; [assumption |]. split; [assumption |].
  destruct (tick_data_array [] [x09; x08] [x00; x00; x00; x00] 1 4 H0 H1)
    as (d' & h' & Hrun & _ & Hlow & Hhigh).
  exists d', h'. split; [exact Hrun |]. split.
  - apply (Hlow 0). lia.
  - apply (Hhigh 1). lia.
Defined.

Lemma ticks_scroll_old_content_witness :
  0 <= 1 /\
  Z.of_nat (length [x01; x02; x03; x04; x05; x06; x07; x08]) = 8 /\
  1 <= Z.of_nat (length [x00]) /\
  exists dataArray' heights',
    runTicks [[x0a]; [x0b]] [x00]
      [x01; x02; x03; x04; x05; x06; x07; x08] 1 8
    = Some (dataArray', heights') /\
    get heights' 1 = get [x01; x02; x03; x04; x05; x06; x07; x08] 5.
Proof.
  assert (0 <= 1) as H0 by lia.
  assert (Z.of_nat (length [x01; x02; x03; x04; x05; x06; x07; x08]) = 8)
    as H1 by reflexivity.
  assert (1 <= Z.of_nat (length [x00])) as H2 by (simpl; lia).
  split; [assumption |]. split; [assumption |]. split; [assumption |].
  destruct (ticks_scroll_old_content [[x0a]; [x0b]] [x00]
              [x01; x02; x03; x04; x05; x06; x07; x08] 1 8 H0 H1 H2)
    as (d' & h' & Hrun & Hscroll & _).
  exists d', h'. split; [exact Hrun |].
  apply (Hscroll 1). simpl. lia.
Defined.

Lemma ticks_keep_history_witness :
  0 < 1 /\
  Z.of_nat (length [x00; x00; x00; x00; x00; x00; x00; x00]) = 8 /\
  1 <= Z.of_nat (length [x00]) /\
  (Z.of_nat (length [[x07]]) + 2) * (1 + 1) <= 8 /\
  exists dataArray' heights',
    runTicks ([[x01]] ++ [x05] :: [[x07]]) [x00]
      [x00; x00; x00; x00; x00; x00; x00; x00] 1 8
    = Some (dataArray', heights') /\
    get heights' 2 = Some x05 /\ get heights' 3 = Some x05.
Proof.
  assert (0 < 1) as H0 by lia.
  assert (Z.of_nat (length [x00; x00; x00; x00; x00; x00; x00; x00]) = 8)
    as H1 by reflexivity.
  assert (1 <= Z.of_nat (length [x00])) as H2 by (simpl; lia).
  assert ((Z.of_nat (length [[x07]]) + 2) * (1 + 1) <= 8) as H3
    by (simpl; lia).
  split; [assumption |]. split; [assumption |]. split; [assumption |].
  split; [assumption |].
  destruct (ticks_keep_history [[x01]] [[x07]] [x05] [x00]
              [x00; x00; x00; x00; x00; x00; x00; x00] 1 8 H0 H1 H2 H3)
    as (d' & h' & Hrun & Hcol).
  exists d', h'. split; [exact Hrun |]. split.
  - apply (Hcol 0). lia.
  - apply (Hcol 1). lia.
Defined.

Lemma fft_size_monotone_witness :
  64 <= 100 /\ calculateFFTSize 64 <= calculateFFTSize 100.
Proof.
  assert (64 <= 100) as Hle by lia.
  split; [assumption |]. exact (fft_size_monotone 64 100 Hle).
Defined.

Lemma fft_bins_cover_samples_witness :
  0 < 300 <= 8192 /\ 300 <= calculateFFTSize 300 / 2.
Proof.
  assert (0 < 300 <= 8192) as Hr by lia.
  split; [assumption |]. exact (fft_bins_cover_samples 300 Hr).
Defined.

Lemma scheme_buttons_cycle_witness :
  (0 < 3 < 11)%nat /\
  Nat.iter 3 (fun o => o ≫= RadioPlayer.handleColorSchemeNext) (Some rainbow)
  <> Some rainbow.
Proof.
  assert (0 < 3 < 11)%nat as Hk by lia.
  split; [assumption |].
  destruct (scheme_buttons_cycle rainbow) as (_ & _ & _ & Hshort).
  exact (Hshort 3%nat Hk).
Defined.

Lemma triangles_are_proper_witness :
  itemAt (generateIndices 2 2) 4 = Some (4, 3, 7) /\
  (0 <= 4 < calculateVertexCount 2 2 /\ 0 <= 3 < calculateVertexCount 2 2 /\
   0 <= 7 < calculateVertexCount 2 2) /\
  4 <> 3 /\ 3 <> 7 /\ 4 <> 7.
Proof.
  assert (itemAt (generateIndices 2 2) 4 = Some (4, 3, 7)) as Ht
    by reflexivity.
  split; [assumption |].
  exact (triangles_are_proper 2 2 4 4 3 7 Ht).
Defined.

Lemma geometry_attribute_sizes_witness :
  let params :=
    {| xsize := 4; ysize := 2; frequencySamples := 1; timeSamples := 2 |} in
  0 < timeSamples params /\ 0 < frequencySamples params /\
  exists g,
    @createGeometry rational_host params = Some g /\
    Z.of_nat (length (position (geometry g))) = 3 * nVertices g.
Proof.
  intros params.
  assert (0 < timeSamples params) as HT by (simpl; lia).
  assert (0 < frequencySamples params) as HF by (simpl; lia).
  split; [assumption |]. split; [assumption |].
  destruct (@geometry_attribute_sizes rational_host params HT HF)
    as (g & Hg & Hpos & _).
  exists g. split; [exact Hg | exact Hpos].
Defined.

Lemma grid_columns_left_to_right_witness :
  let params :=
    {| xsize := 4; ysize := 2; frequencySamples := 1; timeSamples := 2 |} in
  0 < timeSamples params /\ 0 < frequencySamples params /\
  (0 < xsize params)%Q /\
  exists vd x,
    @generateVertices rational_host params = Some vd /\
    (x 0%Z == - (xsize params / 2))%Q /\
    (x 1%Z < x 2%Z)%Q.
Proof.
  intros params.
  assert (0 < timeSamples params) as HT by (simpl; lia).
  assert (0 < frequencySamples params) as HF by (simpl; lia).
  assert (0 < xsize params)%Q as Hx by reflexivity.
  split; [assumption |]. split; [assumption |]. split; [assumption |].
  destruct (@grid_columns_left_to_right rational_host params HT HF)
    as (vd & x & Hvd & _ & Hfirst & Hordered).
  exists vd, x. split; [exact Hvd |]. split; [exact Hfirst |].
  apply (Hordered Hx 1 2); simpl; lia.
Defined.

Lemma gradient_in_unit_cube_witness :
  (0 <= 0.5 <= 1)%Q /\ (0 <= green (getColor 6 0.5) <= 1)%Q.
Proof.
  assert (0 <= 0.5 <= 1)%Q as Hi by (split; discriminate).
  split; [assumption |].
  destruct (gradient_in_unit_cube 6 0.5 Hi) as (_ & Hg & _).
  exact Hg.
Defined.

Lemma unknown_scheme_is_purple_witness :
  (42 < 0 \/ 10 < 42) /\
  main 42 200 = main (COLOR_SCHEME_VALUES purple) 200.
Proof.
  assert (42 < 0 \/ 10 < 42) as Hout by (right; lia).
  split; [assumption |].
  destruct (unknown_scheme_is_purple 42 200 Hout) as (_ & Hmain).
  exact Hmain.
Defined.

Lemma displacement_raises_vertex_witness :
  (0 <= 8)%Q /\
  (0 <= VertexShader.z
          (VertexShader.newPosition
             (VertexShader.main 8 (VertexShader.Position 1 2 0)
                (VertexShader.attributeValue x80)))
        - VertexShader.z (VertexShader.Position 1 2 0)
   <= 8)%Q.
Proof.
  assert (0 <= 8)%Q as Hm by discriminate.
  split; [assumption |].
  destruct (displacement_raises_vertex 8 (VertexShader.Position 1 2 0) x80
              Hm) as (_ & _ & _ & _ & _ & _ & Hrise & _).
  exact Hrise.
Defined.

Lemma fragment_colour_by_cell_witness :
  Z.of_N (Byte.to_N x02) <= 2 /\
  rgb (main (getColorSchemeValue rainbow) (inject_Z (Z.of_N (Byte.to_N x02))))
  = darkTint rainbow.
Proof.
  assert (Z.of_N (Byte.to_N x02) <= 2) as Hlow by (simpl; lia).
  split; [assumption |].
  destruct (fragment_colour_by_cell rainbow x02) as (Htint & _).
  exact (Htint Hlow).
Defined.

Lemma radio_pipeline_setup_witness :
  boundToSource {| boundToSource := false |} = false /\
  exists p,
    @AudioPipeline.setupAudioPipeline example_audio_host
      {| boundToSource := false |} 256
    = Returned (p, {| boundToSource := true |}) /\
    fftSize (AudioPipeline.analyser p) = calculateFFTSize 256.
Proof.
  assert (boundToSource {| boundToSource := false |} = false) as Hfree
    by reflexivity.
  split; [assumption |].
  destruct (@radio_pipeline_setup example_audio_host
              {| boundToSource := false |} 256) as (Hok & _).
  destruct (Hok Hfree) as (p & Hp & Hfft & _).
  exists p. split; [exact Hp | exact Hfft].
Defined.

Lemma mic_pipeline_outcome_witness :
  MicAudio.hasActiveAudioTracks [ended; live] = true /\
  state {| state := running; closeRequested := false |} <> closed /\
  closeRequested {| state := running; closeRequested := false |} = false /\
  exists p,
    @MicAudio.createMicAudioPipeline example_audio_host [ended; live]
      {| state := running; closeRequested := false |} 128
    = Returned p /\
    toDestination (MicAudio.analyser p) = false.
Proof.
  assert (MicAudio.hasActiveAudioTracks [ended; live] = true) as Hlive
    by reflexivity.
  assert (state {| state := running; closeRequested := false |} <> closed)
    as Hopen by discriminate.
  assert (closeRequested {| state := running; closeRequested := false |}
          = false) as Hnoclose by reflexivity.
  split; [assumption |]. split; [assumption |]. split; [assumption |].
  destruct (@mic_pipeline_outcome example_audio_host [ended; live]
              {| state := running; closeRequested := false |} 128)
    as (_ & _ & Hbuilt).
  destruct (Hbuilt Hlive Hopen Hnoclose) as (p & Hp & _ & _ & _ & Hdest & _).
  exists p. split; [exact Hp | exact Hdest].
Defined.

Lemma stopped_microphone_is_refused_witness :
  closeRequested {| state := running; closeRequested := false |} = false /\
  exists stream' audioContext',
    stopMicrophone (Some [live; live])
      (Some {| state := running; closeRequested := false |})
    = Normal (Some stream', Some audioContext') /\
    MicAudio.isAudioContextValid (Some audioContext') = false.
Proof.
  assert (closeRequested {| state := running; closeRequested := false |}
          = false) as Hnoclose by reflexivity.
  split; [assumption |].
  destruct (@stopped_microphone_is_refused example_audio_host [live; live]
              {| state := running; closeRequested := false |}
              {| state := running; closeRequested := false |} 256)
    as (s' & c' & Hstop & _ & _ & Hinvalid).
  exists s', c'. split; [exact Hstop | exact (Hinvalid Hnoclose)].
Defined.

Lemma microphone_error_message_witness :
  let e := {| name := "NotFoundError"; message := "Requested device not found" |} in
  (name e = "NotFoundError"%string \/ name e = "DevicesNotFoundError"%string) /\
  MicAudio.getMicrophoneErrorMessage (Some e)
  = MicAudio.MIC_ERROR_MESSAGES.NOT_FOUND.
Proof.
  intros e.
  assert (name e = "NotFoundError"%string
          \/ name e = "DevicesNotFoundError"%string) as Hname
    by (left; reflexivity).
  split; [assumption |].
  destruct (microphone_error_message (Some e)) as (_ & Hcases & _).
  destruct (Hcases e eq_refl) as (_ & Hnotfound & _).
  exact (Hnotfound Hname).
Defined.

Lemma ensure_running_outcome_witness :
  let ctx := {| state := suspended; closeRequested := false |} in
  (MicAudio.ensureAudioContextRunning ctx).2 = true /\
  state ctx = suspended /\
  state (MicAudio.ensureAudioContextRunning ctx).1 = running.
Proof.
  intros ctx.
  assert ((MicAudio.ensureAudioContextRunning ctx).2 = true) as Hans
    by reflexivity.
  assert (state ctx = suspended) as Hsus by reflexivity.
  split; [assumption |]. split; [assumption |].
  destruct (ensure_running_outcome ctx) as (_ & Hruns & _).
  exact (Hruns Hans Hsus).
Defined.



Lemma rebuild_leaves_component_ready_witness :
  let container := {| clientWidth := 0; childNodes := [] |} in
  containerRef Examples.mountedRefs = Some container /\
  valid (validateParameters (params Examples.smallProps)) = true /\
  rendererRef Examples.mountedRefs = None /\
  exists refs' container',
    @initializeThree rational_host Examples.smallProps Examples.mountedRefs
    = Normal refs' /\
    containerRef refs' = Some container' /\
    length (childNodes container') = S (length (childNodes container)).
Proof.
  intros container.
  assert (containerRef Examples.mountedRefs = Some container) as Hc
    by reflexivity.
  assert (valid (validateParameters (params Examples.smallProps)) = true)
    as Hv by reflexivity.
  assert (rendererRef Examples.mountedRefs = None) as Hfresh by reflexivity.
  split; [assumption |]. split; [assumption |]. split; [assumption |].
  destruct (@rebuild_leaves_component_ready rational_host Examples.smallProps
              Examples.mountedRefs container Hc Hv)
    as (refs' & container' & r & h & d & Hrun & Hc' & _ & _ & _ & _ & _
        & Hone & _).
  exists refs', container'.
  split; [exact Hrun |]. split; [exact Hc' | exact (Hone Hfresh)].
Defined.

Lemma animate_keeps_ready_witness :
  0 <= 1 /\ ready 1 Examples.micRefs /\
  exists refs',
    animate 1 [xff; x00] 8 Examples.micRefs = Normal refs' /\
    animationFrameRef (audio refs') = Some 8%nat /\
    ready 1 refs'.
Proof.
  assert (0 <= 1) as H0 by lia.
  assert (ready 1 Examples.micRefs) as Hready.
  { split; [by eexists |]. split; [by eexists |]. split; [by eexists |].
    split; [by eexists |].
    exists Examples.smallMesh, [x00], [x00; x00; x00; x00; x00; x00].
    split; [reflexivity |]. split; [reflexivity |]. split; [reflexivity |].
    split; [reflexivity |]. split; [reflexivity |]. simpl. lia. }
  split; [assumption |]. split; [assumption |].
  destruct (animate_keeps_ready Examples.micRefs 1 [xff; x00] 8 H0 Hready)
    as (refs' & data & heights & data' & heights' & mesh' & Hrun & _ & _ & _
        & _ & _ & _ & _ & Hframe & _ & _ & _ & Hready').
  exists refs'.
  split; [exact Hrun |]. split; [exact Hframe | exact Hready'].
Defined.

Lemma validation_errors_name_failures_witness :
  let params :=
    {| xsize := 0; ysize := 2; frequencySamples := 1; timeSamples := 2 |} in
  (xsize params <= 0)%Q /\
  In "xsize must be greater than 0"%string
     (errors (validateParameters params)).
Proof.
  intros params.
  assert (xsize params <= 0)%Q as Hx by discriminate.
  split; [assumption |].
  destruct (validation_errors_name_failures params) as (Hxsize & _).
  exact (proj2 Hxsize Hx).
Defined.

Lemma slider_settings_are_valid_witness :
  let params :=
    {| xsize := inject_Z 50; ysize := inject_Z 20; frequencySamples := 256;
       timeSamples := 400 |} in
  offered params /\
  valid (validateParameters params) = true /\
  256 <= calculateFFTSize (frequencySamples params) <= 2048.
Proof.
  intros params.
  assert (offered params) as Hoffered.
  { split; [exists 50; split; reflexivity |].
    split; [exists 20; split; reflexivity |].
    split; reflexivity. }
  split; [assumption |].
  destruct (slider_settings_are_valid params Hoffered) as (Hvalid & Hfft & _).
  split; [exact Hvalid | exact Hfft].
Defined.

End MoreWitnesses.
